(** * deno-mmap: the loader, the platform naming and the handle protocol

    A shallow embedding of [src/platform.ts], [src/loader.ts] and
    [src/ffi_api.ts].  The Deno runtime, the network and the native
    library are an explicit [World] (file system, environment, the log
    of external calls) together with a [Host] record of oracles that
    answers every external call. *)

From Stdlib Require Import ZArith Lia.
From Stdlib Require Floats.SpecFloat.
From stdpp Require Import base strings gmap list pretty.

Local Open Scope string_scope.
Local Open Scope list_scope.
Local Open Scope Z_scope.

(** ** JavaScript numbers on integers

    Every [number] the program computes with is integer valued (a length,
    an offset, a [u64] read back from native code), so a [number] is
    modelled by the integer it denotes and the IEEE-754 binary64 rounding
    of [Number(bigint)] and of [+]/[-] is written out on [Z].  Values
    whose magnitude reaches [2^1024] (where JavaScript yields [Infinity])
    are outside the model. *)
Module JsNumber.

(** Round to nearest, ties to even, with a 53-bit significand. *)
Definition round_binary64 (z : Z) : Z :=
  let a := Z.abs z in
  if a <? 2 ^ 53 then z
  else
    let e := Z.log2 a - 52 in
    let q := a / 2 ^ e in
    let r := a mod 2 ^ e in
    let half := 2 ^ (e - 1) in
    let q' := if r <? half then q
              else if half <? r then q + 1
              else if Z.even q then q else q + 1 in
    Z.sgn z * (q' * 2 ^ e).

(** [Number(x)] for a bigint [x]. *)
Definition Number (x : Z) : Z := round_binary64 x.

(** [a + b] and [a - b] on numbers: the exact result, rounded. *)
Definition add (a b : Z) : Z := round_binary64 (a + b).
Definition sub (a b : Z) : Z := round_binary64 (a - b).

(** Integers that binary64 holds exactly without rounding. *)
Definition safe (z : Z) : Prop := Z.abs z < 2 ^ 53.

(** The Standard Library's IEEE-754 specification, used to cross-check
    [round_binary64] on concrete values. *)
Definition ieee_of_Z (z : Z) : SpecFloat.spec_float :=
  match z with
  | Z0 => SpecFloat.S754_zero false
  | Zpos p => SpecFloat.binary_normalize 53 1024 (Zpos p) 0 false
  | Zneg p => SpecFloat.binary_normalize 53 1024 (Zneg p) 0 true
  end.

Definition Z_of_ieee (f : SpecFloat.spec_float) : option Z :=
  match f with
  | SpecFloat.S754_zero _ => Some 0
  | SpecFloat.S754_finite s m e =>
      let sign := if s then -1 else 1 in
      if 0 <=? e then Some (sign * (Zpos m * 2 ^ e))
      else if Zpos m mod 2 ^ (- e) =? 0 then Some (sign * (Zpos m / 2 ^ (- e)))
      else None
  | _ => None
  end.

End JsNumber.

(** ** The runtime: thrown values, the world and the host oracles *)
Module Runtime.

(** What a [throw] carries: an [Error] built by this program, with its
    message, or an exception raised inside a runtime API ([fetch],
    [Deno.readFile], [Deno.dlopen], ...). *)
Inductive Thrown :=
| Error (message : string)
| HostError (what : string).

Inductive Outcome (A : Type) :=
| Ok (a : A)
| Throw (e : Thrown).
Arguments Ok {A} a.
Arguments Throw {A} e.

Definition byte := Byte.byte.

(** [Deno.PointerValue | null]: [None] is [null], [Some a] a pointer
    object whose [Deno.UnsafePointer.value] is [a]. *)
Definition PointerValue := option Z.

(** A file-system entry: a regular file with its bytes and mode, or a
    directory. *)
Inductive Node :=
| File (data : list byte) (mode : Z)
| Dir.

(** The calls through [lib.symbols], with their arguments; a buffer is
    passed as the bytes it holds at the call (what [mmap_read] then
    stores into [dst] is not tracked). *)
Inductive NativeCall :=
| mmap_open (p : string)
| mmap_open_write (p : string)
| mmap_open_write_with_size (p : string) (size : Z)
| mmap_write (base : PointerValue) (off : Z) (src : list byte) (n : Z)
| mmap_read (dst : list byte) (base : PointerValue) (off : Z) (n : Z)
| mmap_flush (base : PointerValue) (off : Z) (n : Z)
| mmap_close (base : PointerValue) (n : Z).

(** Every call that leaves the program, in the order issued. *)
Inductive Event :=
| EvStat (path : string)
| EvMkdir (path : string)
| EvReadFile (path : string)
| EvFetch (url : string)
| EvWriteFile (path : string) (data : list byte) (mode : Z)
| EvTruncate (path : string) (n : Z)
| EvDlopen (path : string) (symbols : list string)
| EvNative (c : NativeCall).

(** The object [Deno.dlopen] returns: [lib_symbols] are the names bound
    in [lib.symbols]. *)
Record Lib := { lib_path : string; lib_symbols : list string }.

(** [type MmapHandle = { ptr, len, path }]. *)
Record MmapHandle := { ptr : PointerValue; len : Z; path : string }.

Record World := {
  build_os : string;                    (* Deno.build.os *)
  build_arch : string;                  (* Deno.build.arch *)
  env : gmap string string;             (* Deno.env *)
  cwd : string;                         (* Deno.cwd() *)
  fs : gmap string Node;
  trace : list Event;
  libP : option (Outcome Lib);          (* [let libP] of ffi_api.ts *)
  handles : list MmapHandle             (* the handle objects, by reference *)
}.

Inductive FetchOutcome :=
| FetchThrows (what : string)
| Response (ok : bool) (status : Z) (statusText : string)
           (arrayBuffer : option (list byte)).

(** What one native call answers: the returned pointer, the [u64] it
    stored through [lenPtr], the returned integer, and the file system
    it leaves behind. *)
Record NativeReply := {
  reply_ptr : PointerValue;
  reply_len : Z;
  reply_ret : Z;
  reply_fs : gmap string Node
}.

(** The surroundings of the three modules: the two imported JSON files
    ([deno.json], [checksums.json]) and the behaviour of the runtime,
    the network and the native binary.  [fetch] and [writeFile_error]
    answer from the calls made so far; [dlopen_error] ([Some] when
    [Deno.dlopen] throws) and [native] see the whole world. *)
Record Host := {
  VERSION : string;                              (* deno.json, [version] *)
  checksums : gmap string string;                (* checksums.json *)
  digest_sha256 : list byte -> list byte;        (* crypto.subtle.digest *)
  toLowerCase : string -> string;                (* String.prototype *)
  fetch : list Event -> string -> FetchOutcome;
  writeFile_error : list Event -> string -> option string;
  dlopen_error : World -> string -> list string -> option string;
  native : World -> Lib -> NativeCall -> NativeReply
}.

(** State and exceptions. *)
Definition M (A : Type) : Type := World -> Outcome A * World.

Definition ret {A} (a : A) : M A := fun w => (Ok a, w).
Definition throw {A} (e : Thrown) : M A := fun w => (Throw e, w).
Definition bind {A B} (c : M A) (k : A -> M B) : M B :=
  fun w => match c w with
           | (Ok a, w') => k a w'
           | (Throw e, w') => (Throw e, w')
           end.
(** [try { body } catch { handler }]: the effects of [body] up to the
    throw stay. *)
Definition try_catch {A} (body handler : M A) : M A :=
  fun w => match body w with
           | (Ok a, w') => (Ok a, w')
           | (Throw _, w') => handler w'
           end.
Definition lift {A} (o : Outcome A) : M A := fun w => (o, w).
Definition get : M World := fun w => (Ok w, w).

Definition set_fs (f : gmap string Node) (w : World) : World :=
  {| build_os := build_os w; build_arch := build_arch w; env := env w;
     cwd := cwd w; fs := f; trace := trace w; libP := libP w;
     handles := handles w |}.
Definition set_trace (t : list Event) (w : World) : World :=
  {| build_os := build_os w; build_arch := build_arch w; env := env w;
     cwd := cwd w; fs := fs w; trace := t; libP := libP w;
     handles := handles w |}.
Definition set_libP (l : option (Outcome Lib)) (w : World) : World :=
  {| build_os := build_os w; build_arch := build_arch w; env := env w;
     cwd := cwd w; fs := fs w; trace := trace w; libP := l;
     handles := handles w |}.
Definition set_handles (hs : list MmapHandle) (w : World) : World :=
  {| build_os := build_os w; build_arch := build_arch w; env := env w;
     cwd := cwd w; fs := fs w; trace := trace w; libP := libP w;
     handles := hs |}.

End Runtime.

Declare Scope js_scope.
Delimit Scope js_scope with js.
Notation "'let!' x ':=' c 'in' k" := (Runtime.bind c (fun x => k))
  (at level 10, x pattern, c at level 100, k at level 200) : js_scope.
Notation "c ';;' k" := (Runtime.bind c (fun _ => k))
  (at level 100, k at level 200, right associativity) : js_scope.

(** ** [src/platform.ts] *)
Module Platform.
Import Runtime.

(** [currentPlatform()], as a function of [Deno.build.os] and
    [Deno.build.arch].  [Os] and [Arch] are string literal types and
    stay the strings they are at run time. *)
Definition currentPlatform (build_os build_arch : string)
  : Outcome (string * string) :=
  let os := build_os in
  if bool_decide (os ≠ "windows") && bool_decide (os ≠ "linux")
     && bool_decide (os ≠ "darwin")
  then Throw (Error ("Unsupported OS: " +:+ os))
  else
    if bool_decide (build_arch = "x86_64") then Ok (os, "x86_64")
    else if bool_decide (build_arch = "aarch64") then Ok (os, "aarch64")
    else Throw (Error ("Unsupported arch: " +:+ build_arch)).

(** [assetName(crateName = "mmap_ffi")]. *)
Definition assetName (build_os build_arch : string) (crateName : string)
  : Outcome string :=
  match currentPlatform build_os build_arch with
  | Throw e => Throw e
  | Ok (os, arch) =>
      let ext := if bool_decide (os = "windows") then "dll"
                 else if bool_decide (os = "linux") then "so" else "dylib" in
      let osTag := if bool_decide (os = "darwin") then "macos" else os in
      Ok (crateName +:+ "-" +:+ osTag +:+ "-" +:+ arch +:+ "." +:+ ext)
  end.

End Platform.

(** ** [src/loader.ts] *)
Module Loader.
Import Runtime.
Local Open Scope js_scope.

Definition OWNER : string := "ARyaskov".
Definition REPO : string := "deno-mmap".

(** [cstr(s)]: the bytes of [s] followed by a NUL. *)
Definition cstr (s : string) : string := s +:+ String Ascii.zero "".
Definition toCStringPath (path : string) : string := cstr path.

(** The symbol definitions handed to [Deno.dlopen]. *)
Record SymbolDef := { parameters : list string; result : string }.

Definition symbolsV2 : list (string * SymbolDef) :=
  [ ("mmap_open", {| parameters := ["buffer"; "pointer"]; result := "pointer" |});
    ("mmap_open_write", {| parameters := ["buffer"; "pointer"]; result := "pointer" |});
    ("mmap_open_write_with_size",
      {| parameters := ["buffer"; "pointer"; "usize"]; result := "pointer" |});
    ("mmap_write",
      {| parameters := ["pointer"; "usize"; "pointer"; "usize"]; result := "usize" |});
    ("mmap_read",
      {| parameters := ["pointer"; "pointer"; "usize"; "usize"]; result := "usize" |});
    ("mmap_flush", {| parameters := ["pointer"; "usize"; "usize"]; result := "i32" |});
    ("mmap_close", {| parameters := ["pointer"; "usize"]; result := "void" |}) ].

Definition symbolsV1 : list (string * SymbolDef) :=
  [ ("mmap_open", {| parameters := ["buffer"; "pointer"]; result := "pointer" |});
    ("mmap_open_write", {| parameters := ["buffer"; "pointer"]; result := "pointer" |});
    ("mmap_write",
      {| parameters := ["pointer"; "usize"; "pointer"; "usize"]; result := "usize" |});
    ("mmap_read",
      {| parameters := ["pointer"; "pointer"; "usize"; "usize"]; result := "usize" |});
    ("mmap_flush", {| parameters := ["pointer"; "usize"; "usize"]; result := "i32" |});
    ("mmap_close", {| parameters := ["pointer"; "usize"]; result := "void" |}) ].

(** [!v] for a string that may be [undefined]. *)
Definition falsy (v : option string) : bool :=
  match v with
  | None => true
  | Some s => bool_decide (s = "")
  end.

(** [b.toString(16).padStart(2, "0")] for a byte. *)
Definition hex_digit (n : N) : string :=
  match n with
  | 0%N => "0" | 1%N => "1" | 2%N => "2" | 3%N => "3" | 4%N => "4"
  | 5%N => "5" | 6%N => "6" | 7%N => "7" | 8%N => "8" | 9%N => "9"
  | 10%N => "a" | 11%N => "b" | 12%N => "c" | 13%N => "d" | 14%N => "e"
  | _ => "f"
  end.
Definition hex_byte (b : byte) : string :=
  let n := Byte.to_N b in
  hex_digit (n / 16) +:+ hex_digit (n mod 16).

Section WithHost.
Context (host : Host).

(** [cacheDir()]. *)
Definition cacheDir : M string := fun w =>
  let home := match env w !! "HOME" with
              | Some h => h
              | None => match env w !! "USERPROFILE" with
                        | Some u => u
                        | None => cwd w
                        end
              end in
  match Platform.currentPlatform (build_os w) (build_arch w) with
  | Throw e => (Throw e, w)
  | Ok (os, _) =>
      if bool_decide (os = "windows") then
        let base := default home (env w !! "LOCALAPPDATA") in
        (Ok (base +:+ "\mmap\cache\" +:+ VERSION host), w)
      else if bool_decide (os = "darwin") then
        (Ok (home +:+ "/Library/Caches/mmap/" +:+ VERSION host), w)
      else
        let base := default (home +:+ "/.cache") (env w !! "XDG_CACHE_HOME") in
        (Ok (base +:+ "/mmap/" +:+ VERSION host), w)
  end.

(** [Deno.mkdir(p, { recursive: true })]: creates the directory when
    nothing is there. *)
Definition mkdir (p : string) : M unit := fun w =>
  let w1 := set_trace (trace w ++ [EvMkdir p]) w in
  match fs w !! p with
  | None => (Ok tt, set_fs (<[p := Dir]> (fs w)) w1)
  | Some Dir => (Ok tt, w1)
  | Some (File _ _) => (Throw (HostError "AlreadyExists"), w1)
  end.

(** [ensureDir(p)]. *)
Definition ensureDir (p : string) : M unit :=
  try_catch (mkdir p) (ret tt).

(** [sha256Hex(bytes)]. *)
Definition sha256Hex (bytes : list byte) : string :=
  foldr (fun b acc => hex_byte b +:+ acc) "" (digest_sha256 host bytes).

(** [Deno.statSync(p).isFile]; throws when nothing is at [p]. *)
Definition statSync_isFile (p : string) : M bool := fun w =>
  let w1 := set_trace (trace w ++ [EvStat p]) w in
  match fs w !! p with
  | Some (File _ _) => (Ok true, w1)
  | Some Dir => (Ok false, w1)
  | None => (Throw (HostError "NotFound"), w1)
  end.

(** [devPath(asset)]. *)
Definition devPath (asset : string) : M (option string) :=
  let! w := get in
  let! platform :=
    lift (Platform.currentPlatform (build_os w) (build_arch w)) in
  let os := platform.1 in
  let arch := platform.2 in
  let osTag := if bool_decide (os = "darwin") then "macos" else os in
  let p := "./dist/" +:+ asset in
  let! flat := try_catch (statSync_isFile p) (ret false) in
  if flat then ret (Some p)
  else
    let legacy := "./dist/" +:+ osTag +:+ "-" +:+ arch +:+ "/" +:+ asset in
    let! nested := try_catch (statSync_isFile legacy) (ret false) in
    if nested then ret (Some legacy) else ret None.

(** [downloadAsset(asset)]. *)
Definition downloadAsset (asset : string) : M (list byte) :=
  let url := "https://github.com/" +:+ OWNER +:+ "/" +:+ REPO
             +:+ "/releases/download/v" +:+ VERSION host +:+ "/" +:+ asset in
  fun w =>
    let w1 := set_trace (trace w ++ [EvFetch url]) w in
    match fetch host (trace w) url with
    | FetchThrows what => (Throw (HostError what), w1)
    | Response ok status statusText body =>
        if negb ok then
          (Throw (Error ("Failed to fetch " +:+ url +:+ ": "
                         +:+ pretty status +:+ " " +:+ statusText)), w1)
        else match body with
             | Some bin => (Ok bin, w1)
             | None => (Throw (HostError "arrayBuffer"), w1)
             end
    end.

(** [Deno.readFile(p)]. *)
Definition readFile (p : string) : M (list byte) := fun w =>
  let w1 := set_trace (trace w ++ [EvReadFile p]) w in
  match fs w !! p with
  | Some (File data _) => (Ok data, w1)
  | _ => (Throw (HostError "NotFound"), w1)
  end.

(** [Deno.writeFile(p, data, { mode })]. *)
Definition writeFile (p : string) (data : list byte) (mode : Z) : M unit :=
  fun w =>
    let w1 := set_trace (trace w ++ [EvWriteFile p data mode]) w in
    match writeFile_error host (trace w) p with
    | Some what => (Throw (HostError what), w1)
    | None => (Ok tt, set_fs (<[p := File data mode]> (fs w)) w1)
    end.

(** [Deno.dlopen(path, symbols)]. *)
Definition dlopen (path : string) (symbols : list (string * SymbolDef))
  : M Lib := fun w =>
  let names := symbols.*1 in
  let w1 := set_trace (trace w ++ [EvDlopen path names]) w in
  match dlopen_error host w path names with
  | Some what => (Throw (HostError what), w1)
  | None => (Ok {| lib_path := path; lib_symbols := names |}, w1)
  end.

(** Lines 123-128 of [loadLibrary], the body of the [try]. *)
Definition verifyCached (asset candidate : string) : M string :=
  let! cached := readFile candidate in
  let want := checksums host !! asset in
  if falsy want then throw (Error ("No checksum for " +:+ asset))
  else
    let got := sha256Hex cached in
    if bool_decide (toLowerCase host got ≠ toLowerCase host (default "" want))
    then throw (Error "checksum mismatch (cache)")
    else ret candidate.

(** Lines 130-136 of [loadLibrary], the body of the [catch]. *)
Definition downloadVerified (asset candidate : string) : M string :=
  let! bin := downloadAsset asset in
  let want := checksums host !! asset in
  if falsy want then throw (Error ("No checksum for " +:+ asset))
  else
    let got := sha256Hex bin in
    if bool_decide (toLowerCase host got ≠ toLowerCase host (default "" want))
    then throw (Error ("Checksum mismatch for " +:+ asset))
    else
      writeFile candidate bin 493 ;;
      ret candidate.

(** Lines 118-137 of [loadLibrary]: the cache candidate, then the
    download.  [493] is [0o755]. *)
Definition fromCacheOrDownload (asset : string) : M string :=
  let! cacheRoot := cacheDir in
  ensureDir cacheRoot ;;
  let candidate := cacheRoot +:+ "/" +:+ asset in
  try_catch (verifyCached asset candidate) (downloadVerified asset candidate).

(** Lines 106-138 of [loadLibrary]: which path is loaded. *)
Definition resolveLibPath : M string :=
  let! w := get in
  let envOverride := env w !! "MMAP_LIB_PATH" in
  let! asset :=
    lift (Platform.assetName (build_os w) (build_arch w) "mmap_ffi") in
  let! libPath :=
    if negb (falsy envOverride) then ret envOverride
    else devPath asset in
  match libPath with
  | Some p => ret p
  | None => fromCacheOrDownload asset
  end.

(** Lines 140-145 of [loadLibrary]: V2 first, V1 when that throws. *)
Definition bindSymbols (libPath : string) : M Lib :=
  try_catch (dlopen libPath symbolsV2) (dlopen libPath symbolsV1).

(** [loadLibrary()]. *)
Definition loadLibrary : M Lib :=
  let! libPath := resolveLibPath in
  bindSymbols libPath.

End WithHost.
End Loader.

(** ** [src/ffi_api.ts] *)
Module FfiApi.
Import Runtime.
Local Open Scope js_scope.

(** The values [lib.symbols[name]] can be: [undefined], or the
    function the runtime bound for a symbol ([SymbolsV2] of loader.ts
    types every member as a function). *)
Inductive JsValue :=
| JsUndefined
| JsFunction (name : string).

Definition symbol (lib : Lib) (name : string) : JsValue :=
  if bool_decide (name ∈ lib_symbols lib) then JsFunction name
  else JsUndefined.

(** [v?.parameters].  [parameters] is a key of the symbol
    _definitions_ passed to [Deno.dlopen] ([Loader.symbolsV2]); the
    bound function that [lib.symbols] holds has no property of that
    name, neither its own ([length], [name]) nor inherited from
    [Function.prototype], so reading it yields [undefined]. *)
Definition optional_parameters (v : JsValue) : JsValue :=
  match v with
  | JsUndefined => JsUndefined
  | JsFunction _ => JsUndefined
  end.

Definition truthy (v : JsValue) : bool :=
  match v with
  | JsUndefined => false
  | JsFunction _ => true
  end.

(** [!p || ptrValue(p) === 0n]. *)
Definition ptrValue (p : PointerValue) : Z := default 0 p.
Definition is_null (p : PointerValue) : bool :=
  match p with
  | None => true
  | Some _ => ptrValue p =? 0
  end.

Section WithHost.
Context (host : Host).

(** [getLib()]: [libP ??= loadLibrary()], awaited. *)
Definition getLib : M Lib := fun w =>
  match libP w with
  | Some r => (r, w)
  | None =>
      let '(r, w') := Loader.loadLibrary host w in
      (r, set_libP (Some r) w')
  end.

(** A call through [lib.symbols]. *)
Definition call (lib : Lib) (c : NativeCall) : M NativeReply := fun w =>
  let r := native host w lib c in
  (Ok r, set_fs (reply_fs r) (set_trace (trace w ++ [EvNative c]) w)).

(** The object literal [{ ptr: p, len: Number(lenBuf[0]), path }]
    becomes a new handle object; its reference is returned. *)
Definition new_handle (p : PointerValue) (lenBuf0 : Z) (path : string)
  : M nat := fun w =>
  let h := {| ptr := p; len := JsNumber.Number (lenBuf0 mod 2 ^ 64);
              path := path |} in
  (Ok (length (handles w)), set_handles (handles w ++ [h]) w).

(** Reading the fields of [h]. *)
Definition deref (href : nat) : M MmapHandle := fun w =>
  match handles w !! href with
  | Some h => (Ok h, w)
  | None => (Throw (HostError "TypeError"), w)
  end.

(** [open(path)]. *)
Definition open (path : string) : M nat :=
  let! lib := getLib in
  let! r := call lib (mmap_open (Loader.toCStringPath path)) in
  if is_null (reply_ptr r)
  then throw (Error ("mmap_open failed: " +:+ path))
  else new_handle (reply_ptr r) (reply_len r) path.

(** [openWrite(path)]. *)
Definition openWrite (path : string) : M nat :=
  let! lib := getLib in
  let! r := call lib (mmap_open_write (Loader.toCStringPath path)) in
  if is_null (reply_ptr r)
  then throw (Error ("mmap_open_write failed: " +:+ path))
  else new_handle (reply_ptr r) (reply_len r) path.

(** [Deno.truncate(path, n)]: the file gets exactly [n] bytes, cut or
    padded with zeros. *)
Definition truncate (path : string) (n : Z) : M unit := fun w =>
  let w1 := set_trace (trace w ++ [EvTruncate path n]) w in
  match fs w !! path with
  | Some (File data mode) =>
      if n <? 0 then (Throw (HostError "InvalidData"), w1)
      else
        let k := Z.to_nat n in
        let data' :=
          (take k data ++ replicate (k - length data)%nat Byte.x00)%list in
        (Ok tt, set_fs (<[path := File data' mode]> (fs w)) w1)
  | _ => (Throw (HostError "NotFound"), w1)
  end.

(** [openWriteWithSize(path, size)]; [size] is a bigint or an integer
    number, so [BigInt(size)] is [size]. *)
Definition openWriteWithSize (path : string) (size : Z) : M nat :=
  let! lib := getLib in
  let want := size in
  let hasNative :=
    optional_parameters (symbol lib "mmap_open_write_with_size") in
  if truthy hasNative then
    let! r := call lib (mmap_open_write_with_size
                          (Loader.toCStringPath path) want) in
    if is_null (reply_ptr r)
    then throw (Error ("mmap_open_write_with_size failed: " +:+ path))
    else new_handle (reply_ptr r) (reply_len r) path
  else
    truncate path (JsNumber.Number want) ;;
    openWrite path.

(** [write(h, src, offset = 0n)]. *)
Definition write (href : nat) (src : list byte) (offset : Z) : M Z :=
  let! lib := getLib in
  let! h := deref href in
  if len h <? JsNumber.add (JsNumber.Number offset) (Z.of_nat (length src))
  then throw (Error "write beyond mapping length")
  else
    let! r := call lib (mmap_write (ptr h) offset src
                          (Z.of_nat (length src))) in
    ret (JsNumber.Number (reply_ret r)).

(** [read(h, dst, offset = 0n)]. *)
Definition read (href : nat) (dst : list byte) (offset : Z) : M Z :=
  let! lib := getLib in
  let! h := deref href in
  if len h <? JsNumber.add (JsNumber.Number offset) (Z.of_nat (length dst))
  then throw (Error "read beyond mapping length")
  else
    let! r := call lib (mmap_read dst (ptr h) offset
                          (Z.of_nat (length dst))) in
    ret (JsNumber.Number (reply_ret r)).

(** [flush(h, offset = 0n, length?)]. *)
Definition flush (href : nat) (offset : Z) (length : option Z) : M unit :=
  let! lib := getLib in
  let! h := deref href in
  let n := default (JsNumber.sub (len h) (JsNumber.Number offset)) length in
  let! r := call lib (mmap_flush (ptr h) offset n) in
  if bool_decide (reply_ret r ≠ 0) then throw (Error "mmap_flush failed")
  else ret tt.

(** [close(h)]. *)
Definition close (href : nat) : M unit :=
  let! lib := getLib in
  let! h := deref href in
  let! _ := call lib (mmap_close (ptr h) (len h)) in
  ret tt.

End WithHost.
End FfiApi.

(** ** The naming convention, in the words of the specification *)
Module Convention.

(** [osTag ∈ {windows, linux, macos}], with the runtime's [darwin]
    label tagged [macos]. *)
Definition osTag (os : string) : option string :=
  if bool_decide (os = "windows") then Some "windows"
  else if bool_decide (os = "linux") then Some "linux"
  else if bool_decide (os = "darwin") then Some "macos"
  else None.

(** [archTag ∈ {x86_64, aarch64}]. *)
Definition archTag (arch : string) : option string :=
  if bool_decide (arch = "x86_64") then Some "x86_64"
  else if bool_decide (arch = "aarch64") then Some "aarch64"
  else None.

(** windows→dll, linux→so, macos→dylib. *)
Definition ext (tag : string) : string :=
  if bool_decide (tag = "windows") then "dll"
  else if bool_decide (tag = "linux") then "so"
  else if bool_decide (tag = "macos") then "dylib"
  else "".

(** [<baseName>-<osTag>-<archTag>.<ext>]. *)
Definition name (baseName tag arch : string) : string :=
  baseName +:+ "-" +:+ tag +:+ "-" +:+ arch +:+ "." +:+ ext tag.

End Convention.

(** ** Concrete surroundings, to run the model on *)
Module Demo.
Import Runtime.

Definition asset : string := "mmap_ffi-linux-x86_64.so".
Definition candidate : string :=
  "/home/u/.cache/mmap/0.1.0/mmap_ffi-linux-x86_64.so".

(** The released binary and a copy with one bit flipped. *)
Definition good : list byte := [Byte.x7f; Byte.x45; Byte.x4c; Byte.x46].
Definition tampered : list byte := [Byte.x7f; Byte.x45; Byte.x4c; Byte.x47].

(** A stand-in digest: the bytes themselves. *)
Definition digest (bytes : list byte) : list byte := bytes.

Definition manifest : gmap string string := {[ asset := "7F454C46" ]}.

(** ASCII lower-casing. *)
Definition lower_char (c : Ascii.ascii) : Ascii.ascii :=
  let n := Ascii.N_of_ascii c in
  if ((65 <=? n) && (n <=? 90))%N then Ascii.ascii_of_N (n + 32) else c.
Fixpoint lower (s : string) : string :=
  match s with
  | EmptyString => EmptyString
  | String c r => String (lower_char c) (lower r)
  end.

(** A native layer that answers every call with the same reply and
    leaves the files alone. *)
Definition const_native (p : PointerValue) (n ret : Z)
  : World -> Lib -> NativeCall -> NativeReply :=
  fun w _ _ => {| reply_ptr := p; reply_len := n; reply_ret := ret;
                  reply_fs := fs w |}.

(** A binary that exports every symbol, and one that lacks
    [mmap_open_write_with_size]. *)
Definition full_binary : World -> string -> list string -> option string :=
  fun _ _ _ => None.

Definition host_with (entries : gmap string string) (net : FetchOutcome)
  (binary : World -> string -> list string -> option string)
  (nat : World -> Lib -> NativeCall -> NativeReply) : Host :=
  {| VERSION := "0.1.0"; checksums := entries; digest_sha256 := digest;
     toLowerCase := lower; fetch := fun _ _ => net;
     writeFile_error := fun _ _ => None; dlopen_error := binary;
     native := nat |}.

Definition host := host_with manifest.

(** A host that only resolves: the network answers [net]. *)
Definition resolver (entries : gmap string string) (net : FetchOutcome)
  : Host :=
  host_with entries net full_binary
    (fun w _ _ => {| reply_ptr := None; reply_len := 0; reply_ret := 0;
                     reply_fs := fs w |}).

Definition offline : FetchOutcome := FetchThrows "error sending request".
Definition serves (bin : list byte) : FetchOutcome :=
  Response true 200 "OK" (Some bin).

(** A Linux machine with the given environment and files, nothing
    loaded yet. *)
Definition linux (e : gmap string string) (files : gmap string Node) : World :=
  {| build_os := "linux"; build_arch := "x86_64"; env := e; cwd := "/work";
     fs := files; trace := []; libP := None; handles := [] |}.

Definition home : gmap string string := {[ "HOME" := "/home/u" ]}.
Definition root : string := "/home/u/.cache/mmap/0.1.0".
Definition flat : string := "./dist/mmap_ffi-linux-x86_64.so".
Definition nested : string := "./dist/linux-x86_64/mmap_ffi-linux-x86_64.so".
Definition release : string :=
  "https://github.com/ARyaskov/deno-mmap/releases/download/v0.1.0/mmap_ffi-linux-x86_64.so".

Definition w_override : World :=
  linux (<["MMAP_LIB_PATH" := "/opt/lib.so"]> home) ∅.
Definition w_flat : World := linux home {[ flat := File good 420 ]}.
Definition w_nested : World := linux home {[ nested := File good 420 ]}.
Definition w_cached : World := linux home {[ candidate := File good 493 ]}.
Definition w_fresh : World := linux home ∅.

Definition v2_lib : Lib :=
  {| lib_path := "/opt/lib.so"; lib_symbols := Loader.symbolsV2.*1 |}.

(** A machine whose library is already bound and that holds one handle. *)
Definition loaded (lib : Lib) (files : gmap string Node) (h : MmapHandle)
  : World :=
  {| build_os := "linux"; build_arch := "x86_64"; env := home; cwd := "/work";
     fs := files; trace := []; libP := Some (Ok lib); handles := [h] |}.

End Demo.

(** ** Vocabulary of the statements *)
Module Spec.
Import Runtime.

(** The world after a call through [lib.symbols]. *)
Definition called (host : Host) (w : World) (lib : Lib) (c : NativeCall)
  : World :=
  set_fs (reply_fs (native host w lib c))
    (set_trace (trace w ++ [EvNative c]) w).

(** The world after more external calls [evs] that leave the files [f]. *)
Definition after (w : World) (evs : list Event) (f : gmap string Node)
  : World :=
  set_fs f (set_trace (trace w ++ evs) w).

(** Is a regular file at [p]? *)
Definition is_file (f : gmap string Node) (p : string) : bool :=
  match f !! p with
  | Some (File _ _) => true
  | _ => false
  end.

(** The two development locations, the download URL. *)
Definition flat (asset : string) : string := "./dist/" +:+ asset.
Definition nested (os arch asset : string) : string :=
  "./dist/" +:+ (if bool_decide (os = "darwin") then "macos" else os)
  +:+ "-" +:+ arch +:+ "/" +:+ asset.
Definition url (host : Host) (asset : string) : string :=
  "https://github.com/" +:+ Loader.OWNER +:+ "/" +:+ Loader.REPO
  +:+ "/releases/download/v" +:+ VERSION host +:+ "/" +:+ asset.

(** The bytes agree with the manifest entry of [asset]: there is an
    entry, and its lower-cased text is the lower-cased hex digest. *)
Definition digest_ok (host : Host) (bytes : list byte) (asset : string)
  : bool :=
  match checksums host !! asset with
  | Some want =>
      negb (bool_decide (want = ""))
      && bool_decide (toLowerCase host (Loader.sha256Hex host bytes)
                      = toLowerCase host want)
  | None => false
  end.

(** A file is at the cache path and its bytes agree with the manifest. *)
Definition cache_ok (host : Host) (f : gmap string Node)
    (candidate asset : string) : bool :=
  match f !! candidate with
  | Some (File data _) => digest_ok host data asset
  | _ => false
  end.

(** The files once the cache directory has been asked for. *)
Definition made (root : string) (f : gmap string Node) : gmap string Node :=
  match f !! root with
  | None => <[root := Dir]> f
  | Some _ => f
  end.

(** The calls every resolution makes before it reaches the download. *)
Definition probes (os arch asset root : string) : list Event :=
  [ EvStat (flat asset); EvStat (nested os arch asset); EvMkdir root;
    EvReadFile (root +:+ "/" +:+ asset) ].

(** What resolution does when no override is set: the development
    locations, then the cache, then the download. *)
Definition below_override (host : Host) (w : World)
    (asset os arch root : string) : Outcome string * World :=
  let candidate := root +:+ "/" +:+ asset in
  if is_file (fs w) (flat asset)
  then (Ok (flat asset), after w [EvStat (flat asset)] (fs w))
  else if is_file (fs w) (nested os arch asset)
  then (Ok (nested os arch asset),
        after w [EvStat (flat asset); EvStat (nested os arch asset)] (fs w))
  else if cache_ok host (fs w) candidate asset
  then (Ok candidate, after w (probes os arch asset root) (made root (fs w)))
  else Loader.downloadVerified host asset candidate
         (after w (probes os arch asset root) (made root (fs w))).

(** A computation that leaves every handle object as it found it. *)
Definition keeps_handles {A} (c : M A) : Prop :=
  forall w, handles (c w).2 = handles w.

End Spec.

(** ** [scripts/gen_checksums_json.ts] *)
Module GenChecksums.
Import Runtime.

(** The double quote and the line feed of the messages. *)
Definition dquote : string := String (Ascii.ascii_of_nat 34) "".
Definition newline : string := String (Ascii.ascii_of_nat 10) "".

(** A regular expression made of literals and alternations of literals
    is run on the list of what may remain of the input: a literal keeps
    the remainders it is a prefix of, an alternation tries each branch
    on each remainder. *)
Fixpoint strip (lit s : string) : option string :=
  match lit with
  | EmptyString => Some s
  | String c lit' =>
      match s with
      | EmptyString => None
      | String d s' => if bool_decide (c = d) then strip lit' s' else None
      end
  end.
Definition lit (l : string) (rest : list string) : list string :=
  omap (strip l) rest.
Definition alt (branches : list string) (rest : list string) : list string :=
  concat (map (fun b => lit b rest) branches).

(** [DEFAULT_REGEX.test(s)] for
    [/^deno_mmapio_ffi-(windows|linux|macos)-(x86_64|aarch64)\.(dll|so|dylib)$/]:
    the match starts at the first character and must use up the input. *)
Definition DEFAULT_REGEX_test (s : string) : bool :=
  bool_decide
    ("" ∈ alt ["dll"; "so"; "dylib"]
            (lit "."
               (alt ["x86_64"; "aarch64"]
                  (lit "-"
                     (alt ["windows"; "linux"; "macos"]
                        (lit "deno_mmapio_ffi-" [s])))))).

(** [sha256Hex(u8)], with the digest of [crypto.subtle.digest]. *)
Definition sha256Hex (digest : list byte -> list byte) (u8 : list byte)
  : string :=
  fold_left (fun s b => s +:+ Loader.hex_byte b) (digest u8) "".

(** An entry of [walk(inDirPath, ...)]. *)
Record WalkEntry := {
  entry_path : string;
  entry_name : string;
  entry_isFile : bool
}.

(** The command line, as far as [collect] reads it ([verbose] only
    adds log lines). *)
Record Args := {
  nameRegex_test : string -> bool;
  nameRegex_text : string;
  strict : bool;
  failOnEmpty : bool
}.

(** The locals of [collect]. *)
Record Collected := {
  map : gmap string string;
  seenPaths : gmap string string;
  countMatched : nat
}.

Section WithFiles.
Context (digest : list byte -> list byte) (args : Args)
        (files : gmap string Node).

Definition duplicate_message (base first second : string) : string :=
  "Duplicate asset basename " +:+ dquote +:+ base +:+ dquote +:+ " at:"
  +:+ newline +:+ "  - " +:+ first +:+ newline +:+ "  - " +:+ second.

(** One turn of the [for await] loop. *)
Definition visit (st : Collected) (e : WalkEntry) : Outcome Collected :=
  if negb (entry_isFile e) then Ok st
  else
    let base := entry_name e in
    if negb (nameRegex_test args base) then Ok st
    else
      let seen := seenPaths st !! base in
      if negb (Loader.falsy seen)
         && bool_decide (default "" seen ≠ entry_path e)
         && strict args
      then Throw (Error (duplicate_message base (default "" seen)
                           (entry_path e)))
      else
        match files !! entry_path e with
        | Some (File data _) =>
            Ok {| map := <[base := sha256Hex digest data]> (map st);
                  seenPaths := <[base := entry_path e]> (seenPaths st);
                  countMatched := S (countMatched st) |}
        | _ => Throw (HostError "NotFound")
        end.

Fixpoint visit_all (st : Collected) (entries : list WalkEntry)
  : Outcome Collected :=
  match entries with
  | [] => Ok st
  | e :: rest =>
      match visit st e with
      | Ok st' => visit_all st' rest
      | Throw x => Throw x
      end
  end.

(** [collect(inDirPath)]; [entries] is what the walk yields, in order. *)
Definition collect (inDirPath : string) (entries : list WalkEntry)
  : Outcome (gmap string string) :=
  match visit_all {| map := ∅; seenPaths := ∅; countMatched := 0 |} entries with
  | Throw x => Throw x
  | Ok st =>
      if failOnEmpty args && bool_decide (countMatched st = 0%nat)
      then Throw (Error ("No matching assets found in " +:+ dquote
                         +:+ inDirPath +:+ dquote +:+ " (regex="
                         +:+ nameRegex_text args +:+ ")"))
      else Ok (map st)
  end.

End WithFiles.
End GenChecksums.

(** ** [tests/test_cycle.ts]: the byte comparison of the tests *)
Module TestCycle.
Import Runtime.

(** [x | 0] for an integer [x]: the low 32 bits, read as signed. *)
Definition to_int32 (x : Z) : Z :=
  let m := x mod 2 ^ 32 in
  if m <? 2 ^ 31 then m else m - 2 ^ 32.

(** An element of a [Uint8Array]. *)
Definition u8 (b : byte) : Z := Z.of_N (Byte.to_N b).

(** [a.subarray(begin, end)]: a negative index counts from the end, and
    both are clamped to the array. *)
Definition subarray (a : list byte) (begin end_ : Z) : list byte :=
  let len := Z.of_nat (length a) in
  let from := if begin <? 0 then Z.max (len + begin) 0 else Z.min begin len in
  let to := if end_ <? 0 then Z.max (len + end_) 0 else Z.min end_ len in
  take (Z.to_nat (to - from)) (drop (Z.to_nat from) a).

(** [view.getUint32(byteOffset, true)] on a view of the bytes [view]:
    little endian, a [RangeError] when the four bytes are not all
    there. *)
Definition getUint32 (view : list byte) (byteOffset : nat) : Outcome Z :=
  match view !! byteOffset, view !! (byteOffset + 1)%nat,
        view !! (byteOffset + 2)%nat, view !! (byteOffset + 3)%nat with
  | Some b0, Some b1, Some b2, Some b3 =>
      Ok (u8 b0 + 2 ^ 8 * u8 b1 + 2 ^ 16 * u8 b2 + 2 ^ 24 * u8 b3)
  | _, _, _, _ => Throw (HostError "RangeError")
  end.

(** A counting [for] loop whose body is [if (differs) return false]:
    the indices are run through in order; [Ok true] says that a turn
    returned. *)
Fixpoint for_each (indices : list nat) (differs : nat -> Outcome bool)
  : Outcome bool :=
  match indices with
  | [] => Ok false
  | i :: rest =>
      match differs i with
      | Ok true => Ok true
      | Ok false => for_each rest differs
      | Throw e => Throw e
      end
  end.

(** The two tests: [va.getUint32(i * 4, true) !== vb.getUint32(i * 4, true)]
    and [sa[k] !== sb[k]]. *)
Definition word_differs (va vb : list byte) (i : nat) : Outcome bool :=
  match getUint32 va (i * 4) with
  | Throw e => Throw e
  | Ok x =>
      match getUint32 vb (i * 4) with
      | Throw e => Throw e
      | Ok y => Ok (bool_decide (x ≠ y))
      end
  end.
Definition byte_differs (sa sb : list byte) (k : nat) : Outcome bool :=
  Ok (bool_decide (u8 <$> sa !! k ≠ u8 <$> sb !! k)).

(** The body of the outer loop on one pair of chunks: words first, then
    the tail from where the word loop stopped. *)
Definition chunk_differs (sa sb : list byte) : Outcome bool :=
  let n := to_int32 (Z.of_nat (length sa) / 4) in
  match for_each (seq 0 (Z.to_nat n)) (word_differs sa sb) with
  | Ok false =>
      let i := Z.to_nat n in
      for_each (seq (i * 4) (length sa - i * 4)) (byte_differs sa sb)
  | r => r
  end.

(** The outer loop from [off]; [None] when [fuel] turns did not end
    it. *)
Fixpoint chunks (fuel : nat) (a b : list byte) (chunk off : Z)
  : option (Outcome bool) :=
  match fuel with
  | O => None
  | S fuel' =>
      if off <? Z.of_nat (length a) then
        let end_ := Z.min (JsNumber.add off chunk) (Z.of_nat (length a)) in
        let sa := subarray a off end_ in
        let sb := subarray b off end_ in
        match chunk_differs sa sb with
        | Ok true => Some (Ok false)
        | Ok false => chunks fuel' a b chunk (JsNumber.add off chunk)
        | Throw e => Some (Throw e)
        end
      else Some (Ok true)
  end.

(** [bytesEqual(a, b, chunk = 1 << 20)]. *)
Definition bytesEqual (fuel : nat) (a b : list byte) (chunk : Z)
  : option (Outcome bool) :=
  if bool_decide (length a ≠ length b) then Some (Ok false)
  else chunks fuel a b chunk 0.

End TestCycle.

(** ** More vocabulary and surroundings for the statements *)
Module More.
Import Runtime.

(** The characters of a C string up to its NUL. *)
Fixpoint before_nul (s : string) : string :=
  match s with
  | EmptyString => EmptyString
  | String c r =>
      if bool_decide (c = Ascii.zero) then EmptyString
      else String c (before_nul r)
  end.

(** A native layer whose two plain opens map an existing file at its
    current size and fail with a null pointer otherwise; every other
    call answers 0.  It leaves the files alone. *)
Definition sizing_native (w : World) (_ : Lib) (c : NativeCall) : NativeReply :=
  let sized p :=
    match fs w !! before_nul p with
    | Some (File data _) =>
        {| reply_ptr := Some 4096; reply_len := Z.of_nat (length data);
           reply_ret := 0; reply_fs := fs w |}
    | _ => {| reply_ptr := None; reply_len := 0; reply_ret := 0;
              reply_fs := fs w |}
    end in
  match c with
  | mmap_open p => sized p
  | mmap_open_write p => sized p
  | _ => {| reply_ptr := None; reply_len := 0; reply_ret := 0;
            reply_fs := fs w |}
  end.

(** Which external calls are downloads, cache writes, binds. *)
Definition is_fetch (e : Event) : bool :=
  match e with EvFetch _ => true | _ => false end.
Definition is_write (e : Event) : bool :=
  match e with EvWriteFile _ _ _ => true | _ => false end.
Definition is_dlopen (e : Event) : bool :=
  match e with EvDlopen _ _ => true | _ => false end.
Definition is_native (e : Event) : bool :=
  match e with EvNative _ => true | _ => false end.

(** Reading lower-case hexadecimal back into bytes. *)
Definition unhex_digit (c : Ascii.ascii) : option N :=
  let n := Ascii.N_of_ascii c in
  if ((48 <=? n) && (n <=? 57))%N then Some (n - 48)%N
  else if ((97 <=? n) && (n <=? 102))%N then Some (n - 87)%N
  else None.
Fixpoint unhex (s : string) : option (list byte) :=
  match s with
  | EmptyString => Some []
  | String hi (String lo rest) =>
      match unhex_digit hi, unhex_digit lo, unhex rest with
      | Some h, Some l, Some bytes =>
          match Byte.of_N (16 * h + l) with
          | Some b => Some (b :: bytes)
          | None => None
          end
      | _, _, _ => None
      end
  | String _ EmptyString => None
  end.

(** What an open operation may leave behind: on success one new handle,
    referenced by the next free index, with a non-null pointer, the path
    that was asked for and a non-negative length; on failure no handle.
    The handles that existed stay as they were. *)
Definition opens_fresh (path : string) (w : World)
    (res : Outcome nat * World) : Prop :=
  match res with
  | (Ok href, w') =>
      href = length (handles w)
      /\ exists h, handles w' = handles w ++ [h]
                   /\ Runtime.path h = path
                   /\ FfiApi.is_null (ptr h) = false
                   /\ 0 <= len h
  | (Throw _, w') => handles w' = handles w
  end.

(** An entry of the walk that [collect] takes up: a regular file whose
    base name the pattern accepts. *)
Definition taken (args : GenChecksums.Args) (e : GenChecksums.WalkEntry)
  : bool :=
  GenChecksums.entry_isFile e
  && GenChecksums.nameRegex_test args (GenChecksums.entry_name e).

(** What holds of the locals of [collect] after the entries [seen]:
    the map holds digests of taken files only, has an entry for every
    taken file, and is not empty once something was counted. *)
Definition collected (digest : list byte -> list byte)
    (args : GenChecksums.Args) (files : gmap string Node)
    (st : GenChecksums.Collected) (seen : list GenChecksums.WalkEntry)
  : Prop :=
  (forall k v, GenChecksums.map st !! k = Some v ->
     exists e data mode,
       e ∈ seen /\ taken args e = true /\ GenChecksums.entry_name e = k
       /\ files !! GenChecksums.entry_path e = Some (File data mode)
       /\ v = GenChecksums.sha256Hex digest data)
  /\ (forall e, e ∈ seen -> taken args e = true ->
        is_Some (GenChecksums.map st !! GenChecksums.entry_name e))
  /\ (GenChecksums.countMatched st ≠ 0%nat -> GenChecksums.map st ≠ ∅).

(** A build output to walk: two platform binaries, a text file, and a
    second copy of one binary in a subdirectory. *)
Definition dist_files : gmap string Node :=
  {[ "dist/deno_mmapio_ffi-linux-x86_64.so" := File Demo.good 493;
     "dist/deno_mmapio_ffi-windows-x86_64.dll" := File Demo.tampered 493;
     "dist/checksums.txt" := File [] 420;
     "dist/old/deno_mmapio_ffi-linux-x86_64.so" := File Demo.tampered 493 ]}.
Definition dist_walk : list GenChecksums.WalkEntry :=
  [ {| GenChecksums.entry_path := "dist";
       GenChecksums.entry_name := "dist";
       GenChecksums.entry_isFile := false |};
    {| GenChecksums.entry_path := "dist/checksums.txt";
       GenChecksums.entry_name := "checksums.txt";
       GenChecksums.entry_isFile := true |};
    {| GenChecksums.entry_path := "dist/deno_mmapio_ffi-linux-x86_64.so";
       GenChecksums.entry_name := "deno_mmapio_ffi-linux-x86_64.so";
       GenChecksums.entry_isFile := true |};
    {| GenChecksums.entry_path := "dist/deno_mmapio_ffi-windows-x86_64.dll";
       GenChecksums.entry_name := "deno_mmapio_ffi-windows-x86_64.dll";
       GenChecksums.entry_isFile := true |};
    {| GenChecksums.entry_path := "dist/old/deno_mmapio_ffi-linux-x86_64.so";
       GenChecksums.entry_name := "deno_mmapio_ffi-linux-x86_64.so";
       GenChecksums.entry_isFile := true |} ].
Definition default_args (strict failOnEmpty : bool) : GenChecksums.Args :=
  {| GenChecksums.nameRegex_test := GenChecksums.DEFAULT_REGEX_test;
     GenChecksums.nameRegex_text :=
       "/^deno_mmapio_ffi-(windows|linux|macos)-(x86_64|aarch64)\.(dll|so|dylib)$/";
     GenChecksums.strict := strict;
     GenChecksums.failOnEmpty := failOnEmpty |}.

(** Does the string hold a NUL character? *)
Fixpoint has_nul (s : string) : bool :=
  match s with
  | EmptyString => false
  | String c r => bool_decide (c = Ascii.zero) || has_nul r
  end.

(** The same machine with [MMAP_LIB_PATH] unset. *)
Definition without_override (w : World) : World :=
  {| build_os := build_os w; build_arch := build_arch w;
     env := delete "MMAP_LIB_PATH" (env w); cwd := cwd w; fs := fs w;
     trace := trace w; libP := libP w; handles := handles w |}.

(** A machine of an operating system the loader does not know. *)
Definition freebsd : World :=
  {| build_os := "freebsd"; build_arch := "x86_64";
     env := <["MMAP_LIB_PATH" := "/opt/lib.so"]> Demo.home; cwd := "/work";
     fs := ∅; trace := []; libP := None; handles := [] |}.

(** The four bytes of word [j] agree. *)
Definition word_agrees (sa sb : list byte) (j : nat) : Prop :=
  sa !! (j * 4)%nat = sb !! (j * 4)%nat
  /\ sa !! (j * 4 + 1)%nat = sb !! (j * 4 + 1)%nat
  /\ sa !! (j * 4 + 2)%nat = sb !! (j * 4 + 2)%nat
  /\ sa !! (j * 4 + 3)%nat = sb !! (j * 4 + 3)%nat.

End More.

(** * Properties *)

Example round_2_53_1 : JsNumber.round_binary64 (2 ^ 53 + 1) = 2 ^ 53.
Proof. reflexivity. Qed.

Example round_2_53_3 : JsNumber.round_binary64 (2 ^ 53 + 3) = 2 ^ 53 + 4.
Proof. reflexivity. Qed.

Example round_ieee_agree :
  List.Forall (fun z => JsNumber.Z_of_ieee (JsNumber.ieee_of_Z z)
                        = Some (JsNumber.round_binary64 z))
    [0; 1; -1; 2 ^ 53 - 1; 2 ^ 53; 2 ^ 53 + 1; 2 ^ 53 + 2; 2 ^ 53 + 3;
     -(2 ^ 53 + 1); -(2 ^ 53 + 3); 2 ^ 54 + 2; 2 ^ 54 + 6; 2 ^ 60 + 129;
     2 ^ 64 - 1; 2 ^ 64 - 1025; 18446744073709550591].
Proof. repeat constructor. Qed.

Example asset_linux : Platform.assetName "linux" "x86_64" "mmap_ffi"
                      = Runtime.Ok "mmap_ffi-linux-x86_64.so".
Proof. reflexivity. Qed.

Import Runtime Spec.

(** ** Platform identification and asset naming *)

(** C9: on the six supported (OS, arch) pairs [assetName] yields exactly
    [<baseName>-<osTag>-<archTag>.<ext>] with windows→dll, linux→so,
    macos→dylib and [darwin] tagged [macos]; on every other OS or
    architecture platform identification, and with it the naming, throws
    the [Unsupported ...] error. *)
Theorem assetName_follows_convention (os arch baseName : string) :
  match Convention.osTag os, Convention.archTag arch with
  | Some tag, Some a =>
      Platform.currentPlatform os arch = Ok (os, a)
      /\ Platform.assetName os arch baseName
         = Ok (Convention.name baseName tag a)
  | None, _ =>
      Platform.currentPlatform os arch
        = Throw (Error ("Unsupported OS: " +:+ os))
      /\ Platform.assetName os arch baseName
         = Throw (Error ("Unsupported OS: " +:+ os))
  | Some _, None =>
      Platform.currentPlatform os arch
        = Throw (Error ("Unsupported arch: " +:+ arch))
      /\ Platform.assetName os arch baseName
         = Throw (Error ("Unsupported arch: " +:+ arch))
  end.
Proof.
  unfold Convention.osTag, Convention.archTag, Platform.assetName,
    Platform.currentPlatform, Convention.name, Convention.ext.
  repeat case_bool_decide; subst; simpl; try done.
Qed.

(** ** Symbol negotiation *)

Lemma getLib_memo (host : Host) (w : World) (r : Outcome Lib) :
  libP w = Some r -> FfiApi.getLib host w = (r, w).
Proof. intros E. unfold FfiApi.getLib. now rewrite E. Qed.

Lemma getLib_stores (host : Host) (w : World) :
  libP (FfiApi.getLib host w).2 = Some (FfiApi.getLib host w).1.
Proof.
  unfold FfiApi.getLib. destruct (libP w) eqn:E; simpl; [exact E|].
  now destruct (Loader.loadLibrary host w).
Qed.

(** [hasNative] is falsy whatever was bound. *)
Lemma hasNative_falsy (lib : Lib) (name : string) :
  FfiApi.truthy (FfiApi.optional_parameters (FfiApi.symbol lib name)) = false.
Proof. unfold FfiApi.symbol. now case_bool_decide. Qed.

Lemma openWriteWithSize_loaded (host : Host) (w : World) (lib : Lib)
    (path : string) (size : Z) :
  libP w = Some (Ok lib) ->
  FfiApi.openWriteWithSize host path size w
  = Runtime.bind (FfiApi.truncate path (JsNumber.Number size))
      (fun _ => FfiApi.openWrite host path) w.
Proof.
  intros E. unfold FfiApi.openWriteWithSize, Runtime.bind at 1.
  rewrite (getLib_memo host w _ E). now rewrite hasNative_falsy.
Qed.





(** ** The handle protocol: bounds and byte counts *)

Lemma round_safe (z : Z) : JsNumber.safe z -> JsNumber.round_binary64 z = z.
Proof.
  unfold JsNumber.safe, JsNumber.round_binary64. intros H.
  now rewrite (proj2 (Z.ltb_lt _ _) H).
Qed.

Lemma write_eval (host : Host) (w : World) (lib : Lib) (href : nat)
    (h : MmapHandle) (src : list byte) (offset : Z) :
  libP w = Some (Ok lib) -> handles w !! href = Some h ->
  FfiApi.write host href src offset w
  = let n := Z.of_nat (length src) in
    if len h <? JsNumber.add (JsNumber.Number offset) n
    then (Throw (Error "write beyond mapping length"), w)
    else
      let c := mmap_write (ptr h) offset src n in
      (Ok (JsNumber.Number (reply_ret (native host w lib c))),
       called host w lib c).
Proof.
  intros E Hh. unfold FfiApi.write, Runtime.bind.
  rewrite (getLib_memo host w _ E). unfold FfiApi.deref. rewrite Hh. simpl.
  now destruct (len h <? _).
Qed.

Lemma read_eval (host : Host) (w : World) (lib : Lib) (href : nat)
    (h : MmapHandle) (dst : list byte) (offset : Z) :
  libP w = Some (Ok lib) -> handles w !! href = Some h ->
  FfiApi.read host href dst offset w
  = let n := Z.of_nat (length dst) in
    if len h <? JsNumber.add (JsNumber.Number offset) n
    then (Throw (Error "read beyond mapping length"), w)
    else
      let c := mmap_read dst (ptr h) offset n in
      (Ok (JsNumber.Number (reply_ret (native host w lib c))),
       called host w lib c).
Proof.
  intros E Hh. unfold FfiApi.read, Runtime.bind.
  rewrite (getLib_memo host w _ E). unfold FfiApi.deref. rewrite Hh. simpl.
  now destruct (len h <? _).
Qed.

Lemma round_large (z : Z) : 2 ^ 53 <= z -> 2 ^ 53 <= JsNumber.round_binary64 z.
Proof.
  intros Hz. unfold JsNumber.round_binary64.
  assert (0 < 2 ^ 53) as H53 by reflexivity.
  rewrite Z.abs_eq by lia.
  assert ((z <? 2 ^ 53) = false) as -> by (apply Z.ltb_ge; exact Hz).
  rewrite Z.sgn_pos, Z.mul_1_l by lia.
  assert (53 <= Z.log2 z) as Hl by (apply Z.log2_le_pow2; lia).
  set (e := Z.log2 z - 52).
  assert (0 < 2 ^ e) as Hp by (apply Z.pow_pos_nonneg; lia).
  assert (2 ^ 52 <= z / 2 ^ e) as Hq.
  { apply Z.div_le_lower_bound; [exact Hp|].
    rewrite <- Z.pow_add_r by lia.
    replace (e + 52) with (Z.log2 z) by (unfold e; lia).
    apply Z.log2_spec. lia. }
  assert (2 ^ 53 <= 2 ^ 52 * 2 ^ e) as Hlow.
  { change (2 ^ 53) with (2 ^ 52 * 2 ^ 1).
    apply Z.mul_le_mono_nonneg_l; [lia|].
    apply Z.pow_le_mono_r; unfold e; lia. }
  etransitivity; [exact Hlow|].
  apply Z.mul_le_mono_nonneg_r; [lia|].
  repeat case_match; lia.
Qed.

Lemma round_opp (z : Z) :
  JsNumber.round_binary64 (- z) = - JsNumber.round_binary64 z.
Proof.
  unfold JsNumber.round_binary64. rewrite Z.abs_opp, Z.sgn_opp.
  destruct (Z.abs z <? 2 ^ 53); [reflexivity | lia].
Qed.

Lemma round_small (z : Z) :
  z <= - 2 ^ 53 -> JsNumber.round_binary64 z <= - 2 ^ 53.
Proof.
  intros Hz. rewrite <- (Z.opp_involutive z), round_opp.
  pose proof (round_large (- z)). lia.
Qed.

(** The test [Number(offset) + n > bound] of [write] and [read] is the
    exact comparison when the mapping and the buffer are shorter than
    [2^53] bytes, whatever the offset. *)
Lemma bounds_test_below_2_53 (offset n bound : Z) :
  0 <= bound < 2 ^ 53 -> 0 <= n < 2 ^ 53 ->
  (bound <? JsNumber.add (JsNumber.Number offset) n) = (bound <? offset + n).
Proof.
  intros Hb Hn. unfold JsNumber.add, JsNumber.Number.
  assert (0 < 2 ^ 53) as H53 by reflexivity.
  assert (forall z, 2 ^ 53 <= z -> (bound <? JsNumber.round_binary64 z) = true)
    as Hbig by (intros z Hz; apply Z.ltb_lt; pose proof (round_large z Hz); lia).
  assert (forall z, z <= 0 -> (bound <? JsNumber.round_binary64 z) = false)
    as Hneg.
  { intros z Hz. apply Z.ltb_ge.
    destruct (Z_lt_le_dec (- 2 ^ 53) z) as [Hs|Hs].
    - rewrite round_safe by (unfold JsNumber.safe; lia). lia.
    - pose proof (round_small z Hs). lia. }
  destruct (Z_lt_le_dec offset (2 ^ 53)) as [Hhi|Hhi].
  - destruct (Z_lt_le_dec (- 2 ^ 53) offset) as [Hlo|Hlo].
    + rewrite (round_safe offset) by (unfold JsNumber.safe; lia).
      destruct (Z_lt_le_dec (offset + n) (2 ^ 53)) as [Hs|Hs].
      * now rewrite round_safe by (unfold JsNumber.safe; lia).
      * rewrite (Hbig _ Hs). symmetry. apply Z.ltb_lt. lia.
    + pose proof (round_small offset Hlo).
      rewrite Hneg by lia. symmetry. apply Z.ltb_ge. lia.
  - pose proof (round_large offset Hhi).
    rewrite Hbig by lia. symmetry. apply Z.ltb_lt. lia.
Qed.

(** X23: for a mapping shorter than [2^53] bytes (and a buffer, as
    every typed array, shorter than [2^53] bytes), [write] and [read]
    with the library bound throw their [... beyond mapping length] error
    exactly when [offset + length > h.len], for every offset, rounded by
    [Number] or not; when they throw nothing at all has happened: the
    world is the one before the call, no native call included.
    Otherwise no bounds error is thrown and exactly one native call,
    [mmap_write] resp. [mmap_read], is issued. *)
Theorem bounds_exact_below_2_53 (host : Host) (w : World) (lib : Lib)
    (href : nat) (h : MmapHandle) (buf : list byte) (offset : Z) :
  libP w = Some (Ok lib) -> handles w !! href = Some h ->
  0 <= len h < 2 ^ 53 -> Z.of_nat (length buf) < 2 ^ 53 ->
  let n := Z.of_nat (length buf) in
  (offset + n > len h ->
     FfiApi.write host href buf offset w
     = (Throw (Error "write beyond mapping length"), w)
     /\ FfiApi.read host href buf offset w
        = (Throw (Error "read beyond mapping length"), w))
  /\ (offset + n <= len h ->
     (exists k, (FfiApi.write host href buf offset w).1 = Ok k)
     /\ trace (FfiApi.write host href buf offset w).2
        = trace w ++ [EvNative (mmap_write (ptr h) offset buf n)]
     /\ (exists k, (FfiApi.read host href buf offset w).1 = Ok k)
     /\ trace (FfiApi.read host href buf offset w).2
        = trace w ++ [EvNative (mmap_read buf (ptr h) offset n)]).
Proof.
  intros E Hh Hl Hn n.
  rewrite (write_eval host w lib href h buf offset E Hh).
  rewrite (read_eval host w lib href h buf offset E Hh).
  cbv zeta. fold n.
  rewrite (bounds_test_below_2_53 offset n (len h) Hl) by (unfold n; lia).
  split; intros Hb.
  - assert ((len h <? offset + n) = true) as -> by (apply Z.ltb_lt; lia).
    split; reflexivity.
  - assert ((len h <? offset + n) = false) as -> by (apply Z.ltb_ge; lia).
    simpl. repeat split; eauto.
Qed.

Lemma bounds_exact_below_2_53_witness :
  let host := Demo.host Demo.offline Demo.full_binary
                (Demo.const_native None 0 4) in
  let h := {| ptr := Some 4096; len := 8; path := "out.bin" |} in
  let w := Demo.loaded Demo.v2_lib ∅ h in
  (FfiApi.write host 0 Demo.good (2 ^ 64 - 1) w
   = (Throw (Error "write beyond mapping length"), w)
   /\ FfiApi.read host 0 Demo.good (2 ^ 64 - 1) w
      = (Throw (Error "read beyond mapping length"), w))
  /\ trace (FfiApi.write host 0 Demo.good 4 w).2
     = [EvNative (mmap_write (Some 4096) 4 Demo.good 4)].
Proof.
  intros host h w. split.
  - apply (bounds_exact_below_2_53 host w Demo.v2_lib 0%nat h Demo.good
             (2 ^ 64 - 1) eq_refl eq_refl);
      [split; [discriminate | reflexivity] | reflexivity | reflexivity].
  - destruct (bounds_exact_below_2_53 host w Demo.v2_lib 0%nat h Demo.good 4
                eq_refl eq_refl) as [_ Hin];
      [split; [discriminate | reflexivity] | reflexivity |].
    destruct Hin as (_ & Ht & _); [discriminate | exact Ht].
Defined.

(** C1 fails once [Number(offset)] rounds: a one-byte write or read
    at offset [2^53 + 1] into a mapping of [2^53] bytes lies beyond the
    mapping, yet [Number(offset) + 1] evaluates to [2^53], no error is
    thrown and [mmap_write] resp. [mmap_read] is called.  One byte
    further the same check does throw. *)
Theorem bounds_check_misses_by_rounding :
  let host := Demo.host Demo.offline Demo.full_binary
                (Demo.const_native None 0 1) in
  let h := {| ptr := Some 4096; len := 2 ^ 53; path := "big.bin" |} in
  let w := Demo.loaded Demo.v2_lib ∅ h in
  let offset := 2 ^ 53 + 1 in
  offset + Z.of_nat (length [Byte.x01]) > len h
  /\ JsNumber.add (JsNumber.Number offset) 1 = 2 ^ 53
  /\ FfiApi.write host 0 [Byte.x01] offset w
     = (Ok 1,
        set_trace [EvNative (mmap_write (Some 4096) offset [Byte.x01] 1)] w)
  /\ FfiApi.read host 0 [Byte.x01] offset w
     = (Ok 1,
        set_trace [EvNative (mmap_read [Byte.x01] (Some 4096) offset 1)] w)
  /\ FfiApi.write host 0 [Byte.x01] (offset + 1) w
     = (Throw (Error "write beyond mapping length"), w).
Proof. repeat split. Qed.

(** C2, as the code has it: a [write] or [read] that passes the bounds
    check ([Number(offset) + length <= h.len], which is
    [offset + length <= h.len] below [2^53]) returns [Number(n)] for
    whatever count [n] the native call reports; the count is not compared
    with the requested length and no error is thrown for a short
    count. *)
Theorem reported_count_returned (host : Host) (w : World) (lib : Lib)
    (href : nat) (h : MmapHandle) (buf : list byte) (offset : Z) :
  libP w = Some (Ok lib) -> handles w !! href = Some h ->
  JsNumber.add (JsNumber.Number offset) (Z.of_nat (length buf)) <= len h ->
  let n := Z.of_nat (length buf) in
  FfiApi.write host href buf offset w
  = (let c := mmap_write (ptr h) offset buf n in
     (Ok (JsNumber.Number (reply_ret (native host w lib c))),
      called host w lib c))
  /\ FfiApi.read host href buf offset w
     = (let c := mmap_read buf (ptr h) offset n in
        (Ok (JsNumber.Number (reply_ret (native host w lib c))),
         called host w lib c)).
Proof.
  intros E Hh Hb n.
  rewrite (write_eval host w lib href h buf offset E Hh).
  rewrite (read_eval host w lib href h buf offset E Hh).
  cbv zeta. fold n.
  assert ((len h <? JsNumber.add (JsNumber.Number offset) n) = false) as ->
    by (apply Z.ltb_ge; exact Hb).
  split; reflexivity.
Qed.

Lemma reported_count_returned_witness :
  let host := Demo.host Demo.offline Demo.full_binary
                (Demo.const_native None 0 1) in
  let h := {| ptr := Some 4096; len := 8; path := "out.bin" |} in
  let w := Demo.loaded Demo.v2_lib ∅ h in
  (FfiApi.write host 0 Demo.good 0 w).1 = Ok 1
  /\ (FfiApi.read host 0 Demo.good 0 w).1 = Ok 1.
Proof.
  intros host h w.
  destruct (reported_count_returned host w Demo.v2_lib 0%nat h Demo.good 0
              eq_refl eq_refl ltac:(vm_compute; discriminate)) as [Hw Hr].
  rewrite Hw, Hr. split; reflexivity.
Defined.

(** C2 as stated fails: the native layer reports 1 byte copied for a
    4-byte in-bounds write, and [write] returns 1 instead of throwing. *)
Lemma short_count_returned_counterexample :
  let host := Demo.host Demo.offline Demo.full_binary
                (Demo.const_native None 0 1) in
  let h := {| ptr := Some 4096; len := 8; path := "out.bin" |} in
  let w := Demo.loaded Demo.v2_lib ∅ h in
  0 + Z.of_nat (length Demo.good) <= len h
  /\ reply_ret (native host w Demo.v2_lib (mmap_write (ptr h) 0 Demo.good 4))
     <> Z.of_nat (length Demo.good)
  /\ (FfiApi.write host 0 Demo.good 0 w).1 = Ok 1.
Proof. repeat split; vm_compute; congruence. Qed.

(** ** The handle record is never written *)

Lemma keeps_ret {A} (a : A) : keeps_handles (Runtime.ret a).
Proof. now intros w. Qed.

Lemma keeps_throw {A} (e : Thrown) : keeps_handles (@Runtime.throw A e).
Proof. now intros w. Qed.

Lemma keeps_lift {A} (o : Outcome A) : keeps_handles (Runtime.lift o).
Proof. now intros w. Qed.

Lemma keeps_get : keeps_handles Runtime.get.
Proof. now intros w. Qed.

Lemma keeps_bind {A B} (c : M A) (k : A -> M B) :
  keeps_handles c -> (forall a, keeps_handles (k a)) ->
  keeps_handles (Runtime.bind c k).
Proof.
  intros Hc Hk w. unfold Runtime.bind. specialize (Hc w).
  destruct (c w) as [[a|e] w']; simpl in *; [|exact Hc].
  now rewrite (Hk a w').
Qed.

Lemma keeps_try {A} (body handler : M A) :
  keeps_handles body -> keeps_handles handler ->
  keeps_handles (Runtime.try_catch body handler).
Proof.
  intros Hb Hh w. unfold Runtime.try_catch. specialize (Hb w).
  destruct (body w) as [[a|e] w']; simpl in *; [exact Hb|].
  now rewrite (Hh w').
Qed.

Ltac keeps_prim :=
  let w := fresh "w" in
  intros w; destruct w; simpl; repeat case_match; reflexivity.

Lemma keeps_cacheDir host : keeps_handles (Loader.cacheDir host).
Proof. unfold Loader.cacheDir. keeps_prim. Qed.

Lemma keeps_mkdir p : keeps_handles (Loader.mkdir p).
Proof. unfold Loader.mkdir. keeps_prim. Qed.

Lemma keeps_statSync p : keeps_handles (Loader.statSync_isFile p).
Proof. unfold Loader.statSync_isFile. keeps_prim. Qed.

Lemma keeps_readFile p : keeps_handles (Loader.readFile p).
Proof. unfold Loader.readFile. keeps_prim. Qed.

Lemma keeps_writeFile host p d m : keeps_handles (Loader.writeFile host p d m).
Proof. unfold Loader.writeFile. keeps_prim. Qed.

Lemma keeps_downloadAsset host a : keeps_handles (Loader.downloadAsset host a).
Proof. unfold Loader.downloadAsset. keeps_prim. Qed.

Lemma keeps_dlopen host p s : keeps_handles (Loader.dlopen host p s).
Proof. unfold Loader.dlopen. keeps_prim. Qed.

Lemma keeps_truncate p n : keeps_handles (FfiApi.truncate p n).
Proof. unfold FfiApi.truncate. keeps_prim. Qed.

Lemma keeps_call host lib c : keeps_handles (FfiApi.call host lib c).
Proof. now intros w. Qed.

Lemma keeps_deref href : keeps_handles (FfiApi.deref href).
Proof. intros w. unfold FfiApi.deref. now case_match. Qed.

Create HintDb frame.
#[local] Hint Resolve keeps_ret keeps_throw keeps_lift keeps_get keeps_cacheDir
  keeps_mkdir keeps_statSync keeps_readFile keeps_writeFile
  keeps_downloadAsset keeps_dlopen keeps_truncate keeps_call keeps_deref
  : frame.

Ltac keeps_step :=
  first [ apply keeps_bind; [|intros ?]
        | apply keeps_try
        | solve [auto with frame]
        | match goal with
          | |- keeps_handles (if ?b then _ else _) => destruct b
          | |- keeps_handles (match ?o with _ => _ end) => destruct o
          end ].

Lemma keeps_loadLibrary host : keeps_handles (Loader.loadLibrary host).
Proof.
  unfold Loader.loadLibrary, Loader.resolveLibPath, Loader.bindSymbols,
    Loader.fromCacheOrDownload, Loader.verifyCached, Loader.downloadVerified,
    Loader.devPath, Loader.ensureDir.
  repeat keeps_step.
Qed.

Lemma keeps_getLib host : keeps_handles (FfiApi.getLib host).
Proof.
  intros w. unfold FfiApi.getLib. destruct (libP w); [reflexivity|].
  pose proof (keeps_loadLibrary host w) as H.
  now destruct (Loader.loadLibrary host w).
Qed.

#[local] Hint Resolve keeps_getLib : frame.

(** C10: [write], [read], [flush] and [close] leave the handle objects
    untouched, whether they return or throw and whether or not the
    library was already loaded: the store of handles after the call is
    the store before it, so [h.ptr], [h.len] and [h.path] read the same,
    after [close] too. *)
Theorem handle_fields_unchanged (host : Host) (w : World) (href : nat)
    (buf : list byte) (offset : Z) (length : option Z) :
  handles (FfiApi.write host href buf offset w).2 = handles w
  /\ handles (FfiApi.read host href buf offset w).2 = handles w
  /\ handles (FfiApi.flush host href offset length w).2 = handles w
  /\ handles (FfiApi.close host href w).2 = handles w.
Proof.
  assert (keeps_handles (FfiApi.write host href buf offset)) as Hw
    by (unfold FfiApi.write; repeat keeps_step).
  assert (keeps_handles (FfiApi.read host href buf offset)) as Hr
    by (unfold FfiApi.read; repeat keeps_step).
  assert (keeps_handles (FfiApi.flush host href offset length)) as Hf
    by (unfold FfiApi.flush; repeat keeps_step).
  assert (keeps_handles (FfiApi.close host href)) as Hc
    by (unfold FfiApi.close; repeat keeps_step).
  repeat split; [apply Hw | apply Hr | apply Hf | apply Hc].
Qed.

(** ** [openWriteWithSize] *)

Lemma truncate_effect (path : string) (n : Z) (w : World) :
  trace (FfiApi.truncate path n w).2 = trace w ++ [EvTruncate path n]
  /\ libP (FfiApi.truncate path n w).2 = libP w.
Proof.
  unfold FfiApi.truncate. destruct w; simpl.
  repeat case_match; simpl; auto.
Qed.

Lemma openWrite_trace (host : Host) (w : World) (lib : Lib) (path : string) :
  libP w = Some (Ok lib) ->
  trace (FfiApi.openWrite host path w).2
  = trace w ++ [EvNative (mmap_open_write (Loader.toCStringPath path))].
Proof.
  intros E. unfold FfiApi.openWrite, Runtime.bind at 1.
  rewrite (getLib_memo host w _ E).
  unfold Runtime.bind, FfiApi.call, FfiApi.new_handle, Runtime.throw.
  now case_match.
Qed.

(** Whatever library is bound, [openWriteWithSize] issues
    [Deno.truncate] and, when that succeeds, [mmap_open_write], and
    nothing else. *)
Lemma openWriteWithSize_calls (host : Host) (w : World) (lib : Lib)
    (path : string) (size : Z) (ev : Event) :
  libP w = Some (Ok lib) ->
  ev ∈ trace (FfiApi.openWriteWithSize host path size w).2 ->
  ev ∈ trace w
  \/ ev = EvTruncate path (JsNumber.Number size)
  \/ ev = EvNative (mmap_open_write (Loader.toCStringPath path)).
Proof.
  intros E. rewrite (openWriteWithSize_loaded host w lib path size E).
  unfold Runtime.bind.
  destruct (truncate_effect path (JsNumber.Number size) w) as [Ht Hl].
  destruct (FfiApi.truncate path (JsNumber.Number size) w) as [[u|e] w1];
    simpl in *.
  - rewrite (openWrite_trace host w1 lib path) by congruence.
    rewrite Ht, !elem_of_app, !list_elem_of_singleton. tauto.
  - rewrite Ht, elem_of_app, list_elem_of_singleton. tauto.
Qed.

(** C3 on the code: the library is loaded from a binary that exports
    all seven symbols, so the Full set is bound; all the same
    [openWriteWithSize("out.bin", 4)] on an 8-byte file never calls the
    native size-ensuring open: it cuts the file to 4 bytes with
    [Deno.truncate] and then calls [mmap_open_write]. *)
Theorem openWriteWithSize_full_takes_fallback :
  let host := Demo.host Demo.offline Demo.full_binary
                (Demo.const_native (Some 4096) 4 0) in
  let eight := Demo.good ++ Demo.good in
  let w := Demo.linux (<["MMAP_LIB_PATH" := "/opt/lib.so"]> Demo.home)
             {[ "out.bin" := File eight 420 ]} in
  let w' := (FfiApi.openWriteWithSize host "out.bin" 4 w).2 in
  libP w' = Some (Ok Demo.v2_lib)
  /\ "mmap_open_write_with_size" ∈ lib_symbols Demo.v2_lib
  /\ trace w'
     = [ EvDlopen "/opt/lib.so" Loader.symbolsV2.*1;
         EvTruncate "out.bin" 4;
         EvNative (mmap_open_write (Loader.toCStringPath "out.bin")) ]
  /\ fs w' !! "out.bin" = Some (File Demo.good 420)
  /\ handles w' = [ {| ptr := Some 4096; len := 4; path := "out.bin" |} ].
Proof.
  intros host eight w w'.
  split; [reflexivity|]. split; [vm_compute; set_solver|].
  vm_compute. repeat split.
Qed.

(** ** Library resolution *)

Lemma append_length (a b : string) :
  String.length (a +:+ b) = (String.length a + String.length b)%nat.
Proof. induction a as [|c a IH]; simpl; [reflexivity | now rewrite IH]. Qed.

Lemma candidate_not_root (root asset : string) : root +:+ "/" +:+ asset ≠ root.
Proof.
  intros E. apply (f_equal String.length) in E.
  rewrite !append_length in E. simpl in E. lia.
Qed.

Lemma made_candidate (root asset : string) (f : gmap string Node) :
  made root f !! (root +:+ "/" +:+ asset) = f !! (root +:+ "/" +:+ asset).
Proof.
  unfold made. destruct (f !! root); [reflexivity|].
  apply lookup_insert_ne. intros E. now apply (candidate_not_root root asset).
Qed.

Lemma platform_of_asset (bo ba base asset : string) :
  Platform.assetName bo ba base = Ok asset ->
  exists os arch, Platform.currentPlatform bo ba = Ok (os, arch).
Proof.
  unfold Platform.assetName.
  destruct (Platform.currentPlatform bo ba) as [[os arch]|e]; [eauto|discriminate].
Qed.

Lemma stat_try (p : string) (w : World) :
  Runtime.try_catch (Loader.statSync_isFile p) (Runtime.ret false) w
  = (Ok (is_file (fs w) p), set_trace (trace w ++ [EvStat p]) w).
Proof.
  unfold Runtime.try_catch, Loader.statSync_isFile, is_file.
  now destruct (fs w !! p) as [[d m|]|].
Qed.

Lemma devPath_eval (w : World) (asset os arch : string) :
  Platform.currentPlatform (build_os w) (build_arch w) = Ok (os, arch) ->
  Loader.devPath asset w
  = if is_file (fs w) (flat asset)
    then (Ok (Some (flat asset)), after w [EvStat (flat asset)] (fs w))
    else (Ok (if is_file (fs w) (nested os arch asset)
              then Some (nested os arch asset) else None),
          after w [EvStat (flat asset); EvStat (nested os arch asset)] (fs w)).
Proof.
  intros Hp. unfold Loader.devPath, Runtime.bind at 1, Runtime.get.
  unfold Runtime.bind at 1, Runtime.lift. rewrite Hp.
  unfold Runtime.bind at 1. rewrite stat_try. fold (flat asset).
  destruct (is_file (fs w) (flat asset)) eqn:Ef.
  - unfold Runtime.ret, after. destruct w; reflexivity.
  - unfold Runtime.bind. rewrite stat_try. simpl.
    fold (nested os arch asset). rewrite <- app_assoc. simpl.
    unfold after. destruct w; simpl.
    now destruct (is_file _ (nested os arch asset)).
Qed.

Lemma after_after (w : World) (e1 e2 : list Event) (f1 f2 : gmap string Node) :
  after (after w e1 f1) e2 f2 = after w (e1 ++ e2) f2.
Proof. unfold after. simpl. now rewrite app_assoc. Qed.

Lemma cacheDir_after (host : Host) (w : World) (root : string)
    (evs : list Event) (f : gmap string Node) :
  (Loader.cacheDir host w).1 = Ok root ->
  Loader.cacheDir host (after w evs f) = (Ok root, after w evs f).
Proof.
  unfold Loader.cacheDir. simpl.
  destruct (Platform.currentPlatform (build_os w) (build_arch w))
    as [[os arch]|e]; simpl; [|discriminate].
  repeat case_bool_decide; simpl; congruence.
Qed.

Lemma ensureDir_eval (root : string) (w : World) :
  Loader.ensureDir root w
  = (Ok tt, after w [EvMkdir root] (made root (fs w))).
Proof.
  unfold Loader.ensureDir, Runtime.try_catch, Loader.mkdir, made, after,
    Runtime.ret.
  destruct w as [bo ba en cw f t l hs]; simpl.
  now destruct (f !! root) as [[d m|]|].
Qed.

Lemma verifyCached_eval (host : Host) (asset candidate : string)
    (handler : M string) (w : World) :
  Runtime.try_catch (Loader.verifyCached host asset candidate) handler w
  = if cache_ok host (fs w) candidate asset
    then (Ok candidate, after w [EvReadFile candidate] (fs w))
    else handler (after w [EvReadFile candidate] (fs w)).
Proof.
  unfold Runtime.try_catch, Loader.verifyCached, Runtime.bind, Loader.readFile,
    cache_ok, digest_ok, Loader.falsy, after, Runtime.throw, Runtime.ret.
  destruct w as [bo ba en cw f t l hs]; simpl.
  destruct (f !! candidate) as [[d m|]|]; simpl; try reflexivity.
  destruct (checksums host !! asset) as [want|]; simpl; try reflexivity.
  repeat case_bool_decide; simpl; try reflexivity; congruence.
Qed.

Lemma fromCacheOrDownload_eval (host : Host) (w : World)
    (asset root : string) :
  Loader.cacheDir host w = (Ok root, w) ->
  let candidate := root +:+ "/" +:+ asset in
  let w1 := after w [EvMkdir root; EvReadFile candidate] (made root (fs w)) in
  Loader.fromCacheOrDownload host asset w
  = if cache_ok host (fs w) candidate asset then (Ok candidate, w1)
    else Loader.downloadVerified host asset candidate w1.
Proof.
  intros Hc candidate w1.
  unfold Loader.fromCacheOrDownload, Runtime.bind at 1. rewrite Hc.
  unfold Runtime.bind. rewrite ensureDir_eval, verifyCached_eval.
  fold candidate. rewrite after_after. simpl.
  unfold cache_ok. unfold candidate at 1 3. rewrite made_candidate.
  reflexivity.
Qed.

(** [resolveLibPath], tier by tier. *)
Lemma resolveLibPath_eval (host : Host) (w : World)
    (asset os arch root : string) :
  Platform.assetName (build_os w) (build_arch w) "mmap_ffi" = Ok asset ->
  Platform.currentPlatform (build_os w) (build_arch w) = Ok (os, arch) ->
  (Loader.cacheDir host w).1 = Ok root ->
  Loader.resolveLibPath host w
  = if Loader.falsy (env w !! "MMAP_LIB_PATH")
    then below_override host w asset os arch root
    else (Ok (default "" (env w !! "MMAP_LIB_PATH")), w).
Proof.
  intros Ha Hp Hr. set (candidate := root +:+ "/" +:+ asset).
  assert (forall evs,
    Loader.fromCacheOrDownload host asset (after w evs (fs w))
    = if cache_ok host (fs w) candidate asset
      then (Ok candidate,
            after w (evs ++ [EvMkdir root; EvReadFile candidate])
              (made root (fs w)))
      else Loader.downloadVerified host asset candidate
             (after w (evs ++ [EvMkdir root; EvReadFile candidate])
                (made root (fs w)))) as Hcache.
  { intros evs.
    rewrite (fromCacheOrDownload_eval host _ asset root
               (cacheDir_after host w root evs (fs w) Hr)).
    fold candidate. now rewrite after_after. }
  unfold Loader.resolveLibPath, Runtime.bind at 1, Runtime.get.
  unfold Runtime.bind at 1, Runtime.lift. rewrite Ha.
  unfold Runtime.bind at 1.
  destruct (Loader.falsy (env w !! "MMAP_LIB_PATH")) eqn:Ef; simpl.
  - rewrite (devPath_eval w asset os arch Hp). unfold below_override.
    fold candidate.
    destruct (is_file (fs w) (flat asset)); [reflexivity|].
    destruct (is_file (fs w) (nested os arch asset)); [reflexivity|].
    now rewrite Hcache.
  - destruct (env w !! "MMAP_LIB_PATH"); [reflexivity|discriminate].
Qed.

Lemma downloadVerified_eval (host : Host) (asset candidate : string)
    (w : World) :
  let u := url host asset in
  let w2 := after w [EvFetch u] (fs w) in
  Loader.downloadVerified host asset candidate w
  = match fetch host (trace w) u with
    | FetchThrows what => (Throw (HostError what), w2)
    | Response false status statusText _ =>
        (Throw (Error ("Failed to fetch " +:+ u +:+ ": " +:+ pretty status
                       +:+ " " +:+ statusText)), w2)
    | Response true _ _ None => (Throw (HostError "arrayBuffer"), w2)
    | Response true _ _ (Some bin) =>
        if Loader.falsy (checksums host !! asset)
        then (Throw (Error ("No checksum for " +:+ asset)), w2)
        else if digest_ok host bin asset
        then match writeFile_error host (trace w ++ [EvFetch u]) candidate with
             | Some what =>
                 (Throw (HostError what),
                  after w [EvFetch u; EvWriteFile candidate bin 493] (fs w))
             | None =>
                 (Ok candidate,
                  after w [EvFetch u; EvWriteFile candidate bin 493]
                    (<[candidate := File bin 493]> (fs w)))
             end
        else (Throw (Error ("Checksum mismatch for " +:+ asset)), w2)
    end.
Proof.
  intros u w2. subst w2.
  unfold Loader.downloadVerified, Runtime.bind, Loader.downloadAsset,
    Loader.writeFile, digest_ok, Loader.falsy, after, Runtime.throw,
    Runtime.ret.
  fold (url host asset). fold u.
  destruct w as [bo ba en cw f t l hs]; simpl.
  destruct (fetch host t u) as [what|[|] status statusText [bin|]]; simpl;
    try reflexivity.
  destruct (checksums host !! asset) as [want|]; simpl; try reflexivity.
  repeat case_bool_decide; simpl; try reflexivity; try congruence.
  rewrite <- app_assoc. simpl.
  now destruct (writeFile_error host _ candidate).
Qed.

(** C4, on a supported platform (where [assetName] returns the asset):
    resolution takes the first tier that matches and consults nothing
    after it.  (1) A non-empty [MMAP_LIB_PATH] is returned as it
    is, with no external call at all; (2) else [./dist/<asset>] when it
    is a file, after that one [stat]; else
    [./dist/<osTag>-<arch>/<asset>] when it is a file, after the two
    [stat]s; (3) else the cache candidate when its bytes agree with the
    manifest, after the cache directory was made and the file read, with
    no fetch; (4) else the download, whose fetch follows the four probes.
    The host, and so the manifest and the digest, is arbitrary: tiers 1
    and 2 return their path whatever the manifest holds. *)
Theorem resolution_priority (host : Host) (w : World)
    (asset os arch root : string) :
  Platform.assetName (build_os w) (build_arch w) "mmap_ffi" = Ok asset ->
  Platform.currentPlatform (build_os w) (build_arch w) = Ok (os, arch) ->
  (Loader.cacheDir host w).1 = Ok root ->
  let override := env w !! "MMAP_LIB_PATH" in
  let candidate := root +:+ "/" +:+ asset in
  let dev1 := is_file (fs w) (flat asset) in
  let dev2 := is_file (fs w) (nested os arch asset) in
  let cached := cache_ok host (fs w) candidate asset in
  (forall p, override = Some p -> p ≠ "" ->
     Loader.resolveLibPath host w = (Ok p, w))
  /\ (Loader.falsy override = true -> dev1 = true ->
      Loader.resolveLibPath host w
      = (Ok (flat asset), after w [EvStat (flat asset)] (fs w)))
  /\ (Loader.falsy override = true -> dev1 = false -> dev2 = true ->
      Loader.resolveLibPath host w
      = (Ok (nested os arch asset),
         after w [EvStat (flat asset); EvStat (nested os arch asset)] (fs w)))
  /\ (Loader.falsy override = true -> dev1 = false -> dev2 = false ->
      cached = true ->
      Loader.resolveLibPath host w
      = (Ok candidate,
         after w (probes os arch asset root) (made root (fs w))))
  /\ (Loader.falsy override = true -> dev1 = false -> dev2 = false ->
      cached = false ->
      Loader.resolveLibPath host w
      = Loader.downloadVerified host asset candidate
          (after w (probes os arch asset root) (made root (fs w)))
      /\ exists rest,
           trace (Loader.resolveLibPath host w).2
           = trace w ++ probes os arch asset root
             ++ EvFetch (url host asset) :: rest).
Proof.
  intros Ha Hp Hr override candidate dev1 dev2 cached.
  rewrite (resolveLibPath_eval host w asset os arch root Ha Hp Hr).
  fold override. unfold below_override. fold candidate dev1 dev2 cached.
  split; [|split; [|split; [|split]]].
  - intros p E Hne. rewrite E. simpl. now case_bool_decide.
  - now intros -> ->.
  - now intros -> -> ->.
  - now intros -> -> -> ->.
  - intros -> -> -> ->. split; [reflexivity|].
    rewrite downloadVerified_eval. cbv zeta.
    set (w1 := after w (probes os arch asset root) (made root (fs w))).
    assert (trace w1 = trace w ++ probes os arch asset root) as Ht
      by reflexivity.
    destruct (fetch host (trace w1) (url host asset))
      as [what|[|] status statusText [bin|]]; simpl;
      try (rewrite <- app_assoc; simpl; eauto; fail).
    destruct (Loader.falsy (checksums host !! asset));
      [simpl; rewrite <- app_assoc; simpl; eauto|].
    destruct (digest_ok host bin asset);
      [|simpl; rewrite <- app_assoc; simpl; eauto].
    destruct (writeFile_error host _ candidate); simpl;
      rewrite <- app_assoc; simpl; eauto.
Qed.

Lemma resolution_priority_witness :
  let host := Demo.resolver Demo.manifest (Demo.serves Demo.good) in
  Loader.resolveLibPath host Demo.w_override = (Ok "/opt/lib.so", Demo.w_override)
  /\ ((Loader.resolveLibPath host Demo.w_flat).1 = Ok Demo.flat
      /\ trace (Loader.resolveLibPath host Demo.w_flat).2 = [EvStat Demo.flat])
  /\ ((Loader.resolveLibPath host Demo.w_nested).1 = Ok Demo.nested
      /\ trace (Loader.resolveLibPath host Demo.w_nested).2
         = [EvStat Demo.flat; EvStat Demo.nested])
  /\ ((Loader.resolveLibPath host Demo.w_cached).1 = Ok Demo.candidate
      /\ trace (Loader.resolveLibPath host Demo.w_cached).2
         = [EvStat Demo.flat; EvStat Demo.nested; EvMkdir Demo.root;
            EvReadFile Demo.candidate])
  /\ exists rest,
       trace (Loader.resolveLibPath host Demo.w_fresh).2
       = [EvStat Demo.flat; EvStat Demo.nested; EvMkdir Demo.root;
          EvReadFile Demo.candidate; EvFetch Demo.release] ++ rest.
Proof.
  intros host.
  split; [|split; [|split; [|split]]].
  - destruct (resolution_priority host Demo.w_override Demo.asset
                "linux" "x86_64" Demo.root eq_refl eq_refl eq_refl)
      as (T & _).
    apply (T "/opt/lib.so"); [reflexivity | discriminate].
  - destruct (resolution_priority host Demo.w_flat Demo.asset
                "linux" "x86_64" Demo.root eq_refl eq_refl eq_refl)
      as (_ & T & _).
    rewrite (T eq_refl eq_refl). split; reflexivity.
  - destruct (resolution_priority host Demo.w_nested Demo.asset
                "linux" "x86_64" Demo.root eq_refl eq_refl eq_refl)
      as (_ & _ & T & _).
    rewrite (T eq_refl eq_refl eq_refl). split; reflexivity.
  - destruct (resolution_priority host Demo.w_cached Demo.asset
                "linux" "x86_64" Demo.root eq_refl eq_refl eq_refl)
      as (_ & _ & _ & T & _).
    rewrite (T eq_refl eq_refl eq_refl eq_refl). split; reflexivity.
  - destruct (resolution_priority host Demo.w_fresh Demo.asset
                "linux" "x86_64" Demo.root eq_refl eq_refl eq_refl)
      as (_ & _ & _ & _ & T).
    destruct (T eq_refl eq_refl eq_refl eq_refl) as [_ [rest Hrest]].
    exists rest. exact Hrest.
Defined.

(** C4 as stated fails on a platform the loader does not know:
    [assetName] throws before the override is used, so a set
    [MMAP_LIB_PATH] is not returned. *)
Lemma override_unused_on_unsupported_platform_counterexample :
  let host := Demo.resolver Demo.manifest (Demo.serves Demo.good) in
  env More.freebsd !! "MMAP_LIB_PATH" = Some "/opt/lib.so"
  /\ Loader.resolveLibPath host More.freebsd
     = (Throw (Error "Unsupported OS: freebsd"), More.freebsd)
  /\ Loader.resolveLibPath host More.freebsd
     <> (Ok "/opt/lib.so", More.freebsd).
Proof. repeat split. discriminate. Qed.

(** ** The cache and the download *)




Lemma digest_differs (host : Host) (bytes : list byte) (asset want : string) :
  checksums host !! asset = Some want ->
  toLowerCase host (Loader.sha256Hex host bytes) ≠ toLowerCase host want ->
  digest_ok host bytes asset = false.
Proof.
  intros E Hne. unfold digest_ok. rewrite E.
  rewrite (bool_decide_eq_false_2 _ Hne). apply andb_false_r.
Qed.



Lemma loadLibrary_throws (host : Host) (w w' : World) (e : Thrown) :
  Loader.resolveLibPath host w = (Throw e, w') ->
  Loader.loadLibrary host w = (Throw e, w').
Proof. intros E. unfold Loader.loadLibrary, Runtime.bind. now rewrite E. Qed.

Lemma written_only_when_verified (host : Host) (asset candidate : string)
    (w : World) (p : string) (d : list byte) (m : Z) :
  EvWriteFile p d m
    ∈ trace (Loader.downloadVerified host asset candidate w).2 ->
  EvWriteFile p d m ∈ trace w
  \/ (p = candidate /\ m = 493 /\ digest_ok host d asset = true).
Proof.
  rewrite downloadVerified_eval. cbv zeta.
  destruct (fetch host (trace w) (url host asset))
    as [what|[|] status statusText [bin|]]; simpl;
    try (rewrite elem_of_app, list_elem_of_singleton; intuition (simplify_eq; auto)).
  destruct (Loader.falsy (checksums host !! asset)); simpl;
    try (rewrite elem_of_app, list_elem_of_singleton; intuition (simplify_eq; auto)).
  destruct (digest_ok host bin asset) eqn:Hok; simpl;
    try (rewrite elem_of_app, list_elem_of_singleton; intuition (simplify_eq; auto)).
  destruct (writeFile_error host _ candidate); simpl;
    rewrite elem_of_app, !elem_of_cons, elem_of_nil; intuition (simplify_eq; auto).
Qed.

(** C6: what resolution writes is the cache path only, with mode
    [0o755], and only bytes that agree with the manifest.  When the
    downloaded bytes disagree with the manifest entry, resolution throws
    [Checksum mismatch for <asset>] right after the fetch: nothing is
    written, the cache entry is what it was, and nothing else is
    tried. *)
Theorem tampered_download_rejected (host : Host) (w : World)
    (asset os arch root : string) :
  Platform.assetName (build_os w) (build_arch w) "mmap_ffi" = Ok asset ->
  Platform.currentPlatform (build_os w) (build_arch w) = Ok (os, arch) ->
  (Loader.cacheDir host w).1 = Ok root ->
  let candidate := root +:+ "/" +:+ asset in
  let tried := probes os arch asset root in
  let u := url host asset in
  (forall p d m,
     EvWriteFile p d m ∈ trace (Loader.resolveLibPath host w).2 ->
     EvWriteFile p d m ∈ trace w
     \/ (p = candidate /\ m = 493 /\ digest_ok host d asset = true))
  /\ (forall bin status statusText want,
     Loader.falsy (env w !! "MMAP_LIB_PATH") = true ->
     is_file (fs w) (flat asset) = false ->
     is_file (fs w) (nested os arch asset) = false ->
     cache_ok host (fs w) candidate asset = false ->
     fetch host (trace w ++ tried) u
     = Response true status statusText (Some bin) ->
     checksums host !! asset = Some want -> want ≠ "" ->
     toLowerCase host (Loader.sha256Hex host bin) ≠ toLowerCase host want ->
     Loader.resolveLibPath host w
     = (Throw (Error ("Checksum mismatch for " +:+ asset)),
        after w (tried ++ [EvFetch u]) (made root (fs w)))
     /\ Loader.loadLibrary host w
        = (Throw (Error ("Checksum mismatch for " +:+ asset)),
           after w (tried ++ [EvFetch u]) (made root (fs w)))
     /\ fs (Loader.resolveLibPath host w).2 !! candidate = fs w !! candidate).
Proof.
  intros Ha Hp Hr candidate tried u.
  rewrite (resolveLibPath_eval host w asset os arch root Ha Hp Hr).
  unfold below_override. fold candidate tried. split.
  - intros p d m.
    destruct (Loader.falsy (env w !! "MMAP_LIB_PATH")); [|now left].
    destruct (is_file (fs w) (flat asset));
      [simpl; rewrite elem_of_app, list_elem_of_singleton; intuition (simplify_eq; auto)|].
    destruct (is_file (fs w) (nested os arch asset));
      [simpl; rewrite elem_of_app, !elem_of_cons, elem_of_nil; intuition (simplify_eq; auto)|].
    destruct (cache_ok host (fs w) candidate asset).
    + simpl. unfold tried, probes.
      rewrite elem_of_app, !elem_of_cons, elem_of_nil. intuition (simplify_eq; auto).
    + intros Hin. apply written_only_when_verified in Hin as [Hin|Hin];
        [|now right].
      simpl in Hin. unfold tried, probes in Hin.
      rewrite elem_of_app, !elem_of_cons, elem_of_nil in Hin. intuition (simplify_eq; auto).
  - intros bin status statusText want Ho Hd1 Hd2 Hc Hfetch Hw Hne Hdig.
    rewrite Ho, Hd1, Hd2, Hc.
    rewrite downloadVerified_eval. cbv zeta. fold u. simpl.
    rewrite Hfetch. unfold Loader.falsy. rewrite Hw.
    rewrite (bool_decide_eq_false_2 _ Hne).
    rewrite (digest_differs host bin asset want Hw Hdig).
    rewrite after_after. simpl. split; [reflexivity|].
    split; [|apply made_candidate].
    apply loadLibrary_throws.
    rewrite (resolveLibPath_eval host w asset os arch root Ha Hp Hr), Ho.
    unfold below_override. fold candidate tried. rewrite Hd1, Hd2, Hc.
    rewrite downloadVerified_eval. cbv zeta. fold u. simpl.
    rewrite Hfetch. unfold Loader.falsy. rewrite Hw.
    rewrite (bool_decide_eq_false_2 _ Hne).
    rewrite (digest_differs host bin asset want Hw Hdig).
    now rewrite after_after.
Qed.

Lemma tampered_download_rejected_witness :
  let host := Demo.resolver Demo.manifest (Demo.serves Demo.tampered) in
  (Loader.resolveLibPath host Demo.w_fresh).1
  = Throw (Error "Checksum mismatch for mmap_ffi-linux-x86_64.so")
  /\ fs (Loader.resolveLibPath host Demo.w_fresh).2 !! Demo.candidate = None.
Proof.
  intros host.
  assert (Demo.lower (Loader.sha256Hex host Demo.tampered)
          ≠ Demo.lower "7F454C46") as Hne by (vm_compute; discriminate).
  destruct (tampered_download_rejected host Demo.w_fresh Demo.asset
              "linux" "x86_64" Demo.root eq_refl eq_refl eq_refl)
    as [_ Hbad].
  destruct (Hbad Demo.tampered 200 "OK" "7F454C46"
              eq_refl eq_refl eq_refl eq_refl eq_refl eq_refl
              ltac:(discriminate) Hne) as (Hr & _ & Hf).
  split; [now rewrite Hr | exact Hf].
Defined.

Lemma missing_entry_rejects (host : Host) (f : gmap string Node)
    (candidate asset : string) :
  Loader.falsy (checksums host !! asset) = true ->
  cache_ok host f candidate asset = false.
Proof.
  unfold Loader.falsy, cache_ok, digest_ok. intros H.
  destruct (f !! candidate) as [[d m|]|]; try reflexivity.
  destruct (checksums host !! asset); [|reflexivity].
  now rewrite H.
Qed.

Lemma messages_differ (a b : string) :
  "No checksum for " +:+ a ≠ "Checksum mismatch for " +:+ b
  /\ "No checksum for " +:+ a ≠ "checksum mismatch (cache)".
Proof. split; discriminate. Qed.

(** C7, as the code has it: when no override and no development
    artifact is found and the manifest has no (or an empty) entry for
    the asset, resolution always throws and writes nothing, the cache
    entry staying as it was.  The missing entry noticed while checking a
    cached file is caught like any other cache failure, so the download
    is tried in every case; the error the caller gets is
    [No checksum for <asset>] once the download has delivered bytes, and
    the download's own failure otherwise.  The message of the missing
    entry differs from both checksum-mismatch messages. *)
Theorem missing_entry_is_fatal (host : Host) (w : World)
    (asset os arch root : string) :
  Platform.assetName (build_os w) (build_arch w) "mmap_ffi" = Ok asset ->
  Platform.currentPlatform (build_os w) (build_arch w) = Ok (os, arch) ->
  (Loader.cacheDir host w).1 = Ok root ->
  let candidate := root +:+ "/" +:+ asset in
  let tried := probes os arch asset root in
  let u := url host asset in
  Loader.falsy (env w !! "MMAP_LIB_PATH") = true ->
  is_file (fs w) (flat asset) = false ->
  is_file (fs w) (nested os arch asset) = false ->
  Loader.falsy (checksums host !! asset) = true ->
  (exists e, Loader.resolveLibPath host w
             = (Throw e, after w (tried ++ [EvFetch u]) (made root (fs w)))
             /\ Loader.loadLibrary host w
                = (Throw e, after w (tried ++ [EvFetch u]) (made root (fs w))))
  /\ fs (Loader.resolveLibPath host w).2 !! candidate = fs w !! candidate
  /\ match fetch host (trace w ++ tried) u with
     | Response true _ _ (Some _) =>
         (Loader.resolveLibPath host w).1
         = Throw (Error ("No checksum for " +:+ asset))
     | Response true _ _ None =>
         (Loader.resolveLibPath host w).1 = Throw (HostError "arrayBuffer")
     | Response false status statusText _ =>
         (Loader.resolveLibPath host w).1
         = Throw (Error ("Failed to fetch " +:+ u +:+ ": " +:+ pretty status
                         +:+ " " +:+ statusText))
     | FetchThrows what =>
         (Loader.resolveLibPath host w).1 = Throw (HostError what)
     end
  /\ (forall b, "No checksum for " +:+ asset ≠ "Checksum mismatch for " +:+ b)
  /\ "No checksum for " +:+ asset ≠ "checksum mismatch (cache)".
Proof.
  intros Ha Hp Hr candidate tried u Ho Hd1 Hd2 Hm.
  assert (Loader.resolveLibPath host w
          = Loader.downloadVerified host asset candidate
              (after w tried (made root (fs w)))) as Hres.
  { rewrite (resolveLibPath_eval host w asset os arch root Ha Hp Hr), Ho.
    unfold below_override. fold candidate tried. rewrite Hd1, Hd2.
    now rewrite (missing_entry_rejects host (fs w) candidate asset Hm). }
  revert Hres.
  rewrite downloadVerified_eval. cbv zeta. fold u. simpl. rewrite Hm.
  rewrite !after_after. simpl. intros Hres.
  split; [|rewrite Hres; repeat split; try apply messages_differ;
           destruct (fetch host (trace w ++ tried) u)
             as [what|[|] status statusText [bin|]]; simpl;
           eauto using made_candidate].
  destruct (fetch host (trace w ++ tried) u)
    as [what|[|] status statusText [bin|]];
    eexists; (split; [exact Hres | now apply loadLibrary_throws]).
Qed.

Lemma missing_entry_is_fatal_witness :
  let host := Demo.resolver ∅ (Demo.serves Demo.good) in
  (Loader.resolveLibPath host Demo.w_cached).1
  = Throw (Error "No checksum for mmap_ffi-linux-x86_64.so")
  /\ fs (Loader.resolveLibPath host Demo.w_cached).2 !! Demo.candidate
     = Some (File Demo.good 493).
Proof.
  intros host.
  destruct (missing_entry_is_fatal host Demo.w_cached Demo.asset
              "linux" "x86_64" Demo.root eq_refl eq_refl eq_refl
              eq_refl eq_refl eq_refl eq_refl)
    as (_ & Hf & He & _).
  split; [exact He | exact Hf].
Defined.

(** C7 as stated fails on the cache path: a file is cached, the
    manifest has no entry for it and the network is down; the missing
    entry is swallowed and the caller gets the network failure. *)
Lemma missing_entry_swallowed_counterexample :
  let host := Demo.resolver ∅ Demo.offline in
  checksums host !! Demo.asset = None
  /\ fs Demo.w_cached !! Demo.candidate = Some (File Demo.good 493)
  /\ (Loader.resolveLibPath host Demo.w_cached).1
     = Throw (HostError "error sending request")
  /\ (Loader.resolveLibPath host Demo.w_cached).1
     ≠ Throw (Error ("No checksum for " +:+ Demo.asset)).
Proof. vm_compute. repeat split; discriminate. Qed.

(** ** What the fallback of [openWriteWithSize] achieves *)



(** * Further properties of the code *)

Import More.

(** ** A failed acquisition is final *)

(** Every operation starts with [await getLib()]: whatever [libP] holds
    is what it gets. *)
Lemma operations_rethrow (host : Host) (w : World) (e : Thrown) :
  libP w = Some (Throw e) ->
  (forall path, FfiApi.open host path w = (Throw e, w))
  /\ (forall path, FfiApi.openWrite host path w = (Throw e, w))
  /\ (forall path size, FfiApi.openWriteWithSize host path size w = (Throw e, w))
  /\ (forall href buf offset, FfiApi.write host href buf offset w = (Throw e, w))
  /\ (forall href buf offset, FfiApi.read host href buf offset w = (Throw e, w))
  /\ (forall href offset length,
        FfiApi.flush host href offset length w = (Throw e, w))
  /\ (forall href, FfiApi.close host href w = (Throw e, w)).
Proof.
  intros E.
  repeat split; intros;
    unfold FfiApi.open, FfiApi.openWrite, FfiApi.openWriteWithSize,
      FfiApi.write, FfiApi.read, FfiApi.flush, FfiApi.close,
      Runtime.bind at 1;
    now rewrite (getLib_memo host w _ E).
Qed.

(** X1: when the first acquisition of the library fails, the failure is
    what [libP] keeps: every later [getLib] and every later operation
    throws that same error, makes no external call and changes nothing;
    the load is never tried again. *)
Theorem failed_load_is_final (host : Host) (w : World) (e : Thrown) :
  (FfiApi.getLib host w).1 = Throw e ->
  let w1 := (FfiApi.getLib host w).2 in
  FfiApi.getLib host w1 = (Throw e, w1)
  /\ (forall path, FfiApi.open host path w1 = (Throw e, w1))
  /\ (forall path, FfiApi.openWrite host path w1 = (Throw e, w1))
  /\ (forall path size,
        FfiApi.openWriteWithSize host path size w1 = (Throw e, w1))
  /\ (forall href buf offset,
        FfiApi.write host href buf offset w1 = (Throw e, w1))
  /\ (forall href buf offset,
        FfiApi.read host href buf offset w1 = (Throw e, w1))
  /\ (forall href offset length,
        FfiApi.flush host href offset length w1 = (Throw e, w1))
  /\ (forall href, FfiApi.close host href w1 = (Throw e, w1)).
Proof.
  intros He w1.
  assert (libP w1 = Some (Throw e)) as E
    by (unfold w1; now rewrite getLib_stores, He).
  split; [now apply getLib_memo|].
  now apply operations_rethrow.
Qed.

Lemma failed_load_is_final_witness :
  let host := Demo.resolver Demo.manifest Demo.offline in
  let w1 := (FfiApi.getLib host Demo.w_fresh).2 in
  FfiApi.getLib host w1 = (Throw (HostError "error sending request"), w1)
  /\ FfiApi.open host "data.bin" w1
     = (Throw (HostError "error sending request"), w1).
Proof.
  intros host w1.
  destruct (failed_load_is_final host Demo.w_fresh
              (HostError "error sending request") eq_refl)
    as (Hg & Ho & _).
  split; [exact Hg | exact (Ho "data.bin")].
Defined.

(** X2: on an operating system or architecture outside the supported
    ones, [loadLibrary] throws the [Unsupported ...] error of
    [currentPlatform] before it looks at anything: no external call is
    made and [MMAP_LIB_PATH] does not help. *)
Theorem unsupported_platform_blocks_load (host : Host) (w : World)
    (e : Thrown) :
  Platform.currentPlatform (build_os w) (build_arch w) = Throw e ->
  Loader.loadLibrary host w = (Throw e, w)
  /\ (libP w = None ->
      FfiApi.getLib host w = (Throw e, set_libP (Some (Throw e)) w)).
Proof.
  intros Hp.
  assert (Loader.loadLibrary host w = (Throw e, w)) as Hl.
  { unfold Loader.loadLibrary, Loader.resolveLibPath, Runtime.bind,
      Runtime.get, Runtime.lift, Platform.assetName.
    now rewrite Hp. }
  split; [exact Hl|].
  intros E. unfold FfiApi.getLib. now rewrite E, Hl.
Qed.

Lemma unsupported_platform_blocks_load_witness :
  let host := Demo.resolver Demo.manifest (Demo.serves Demo.good) in
  env freebsd !! "MMAP_LIB_PATH" = Some "/opt/lib.so"
  /\ Loader.loadLibrary host freebsd
     = (Throw (Error "Unsupported OS: freebsd"), freebsd).
Proof.
  intros host. split; [reflexivity|].
  apply (unsupported_platform_blocks_load host freebsd). reflexivity.
Defined.

(** ** Opening *)

Lemma round_nonneg (z : Z) : 0 <= z -> 0 <= JsNumber.round_binary64 z.
Proof.
  intros Hz. unfold JsNumber.round_binary64.
  destruct (Z.abs z <? 2 ^ 53) eqn:E; [exact Hz|].
  apply Z.ltb_ge in E. rewrite Z.abs_eq in * by exact Hz.
  assert (0 < z) as Hpos by (assert (0 < 2 ^ 53) by reflexivity; lia).
  rewrite Z.sgn_pos by exact Hpos. rewrite Z.mul_1_l.
  assert (0 <= 2 ^ (Z.log2 z - 52)) as Hp by (apply Z.pow_nonneg; lia).
  assert (0 <= z / 2 ^ (Z.log2 z - 52)) as Hq
    by (apply Z.div_pos; [lia|]; apply Z.pow_pos_nonneg; [lia|];
        assert (53 <= Z.log2 z) by (apply Z.log2_le_pow2; lia); lia).
  apply Z.mul_nonneg_nonneg; [|exact Hp].
  repeat case_match; lia.
Qed.

Lemma new_handle_fresh (p : PointerValue) (n : Z) (path : string)
    (w0 w : World) :
  handles w = handles w0 -> FfiApi.is_null p = false ->
  opens_fresh path w0 (FfiApi.new_handle p n path w).
Proof.
  intros Hh Hp. unfold FfiApi.new_handle, opens_fresh. simpl.
  rewrite Hh. split; [reflexivity|]. eexists. split; [reflexivity|].
  simpl. repeat split; [exact Hp|].
  apply round_nonneg. apply Z.mod_pos_bound. reflexivity.
Qed.

Lemma open_fresh (host : Host) (path : string) (w : World) :
  opens_fresh path w (FfiApi.open host path w).
Proof.
  unfold FfiApi.open, Runtime.bind at 1.
  pose proof (keeps_getLib host w) as Hg.
  destruct (FfiApi.getLib host w) as [[lib|e] w1]; simpl in Hg; [|exact Hg].
  unfold Runtime.bind, FfiApi.call, Runtime.throw.
  destruct (FfiApi.is_null _) eqn:Hn; [exact Hg|].
  now apply new_handle_fresh.
Qed.

Lemma openWrite_fresh_from (host : Host) (path : string) (w0 w : World) :
  handles w = handles w0 ->
  opens_fresh path w0 (FfiApi.openWrite host path w).
Proof.
  intros H0. unfold FfiApi.openWrite, Runtime.bind at 1.
  pose proof (keeps_getLib host w) as Hg.
  destruct (FfiApi.getLib host w) as [[lib|e] w1]; simpl in Hg;
    [|simpl; congruence].
  unfold Runtime.bind, FfiApi.call, Runtime.throw.
  destruct (FfiApi.is_null _) eqn:Hn; [simpl; congruence|].
  apply new_handle_fresh; [simpl; congruence | exact Hn].
Qed.

(** X3: [open], [openWrite] and [openWriteWithSize] only ever add to the
    handles: a successful call returns a reference nothing else holds,
    to a handle with a non-null pointer, the path it was given and a
    non-negative length, and leaves the existing handles as they were; a
    failing call creates no handle.  A pointer object whose value is 0
    counts as a failure like [null]. *)
Theorem open_family_adds_one_handle (host : Host) (w : World)
    (path : string) (size : Z) :
  opens_fresh path w (FfiApi.open host path w)
  /\ opens_fresh path w (FfiApi.openWrite host path w)
  /\ opens_fresh path w (FfiApi.openWriteWithSize host path size w)
  /\ FfiApi.is_null None = true /\ FfiApi.is_null (Some 0) = true.
Proof.
  split; [apply open_fresh|].
  split; [now apply openWrite_fresh_from|].
  split; [|split; reflexivity].
  unfold FfiApi.openWriteWithSize, Runtime.bind at 1.
  pose proof (keeps_getLib host w) as Hg.
  destruct (FfiApi.getLib host w) as [[lib|e] w1]; simpl in Hg; [|exact Hg].
  rewrite hasNative_falsy. unfold Runtime.bind.
  pose proof (keeps_truncate path (JsNumber.Number size) w1) as Ht.
  destruct (FfiApi.truncate path (JsNumber.Number size) w1) as [[u|e] w2];
    simpl in Ht; [|simpl; congruence].
  apply openWrite_fresh_from. congruence.
Qed.

Lemma open_eval (host : Host) (w : World) (lib : Lib) (path : string) :
  libP w = Some (Ok lib) ->
  let c := mmap_open (Loader.toCStringPath path) in
  let r := native host w lib c in
  FfiApi.open host path w
  = if FfiApi.is_null (reply_ptr r)
    then (Throw (Error ("mmap_open failed: " +:+ path)), called host w lib c)
    else (Ok (length (handles w)),
          set_handles
            (handles w ++ [ {| ptr := reply_ptr r;
                               len := JsNumber.Number (reply_len r mod 2 ^ 64);
                               path := path |} ])
            (called host w lib c)).
Proof.
  intros E c r. unfold FfiApi.open, Runtime.bind at 1.
  rewrite (getLib_memo host w _ E).
  unfold Runtime.bind, FfiApi.call, FfiApi.new_handle, Runtime.throw.
  fold c r. now destruct (FfiApi.is_null (reply_ptr r)).
Qed.

(** X4: after [open] succeeded on a file whose length the native layer
    reported as [n < 2^53], the handle records exactly [n], and reading
    into a buffer of [n] bytes at offset 0 (the whole-file read of the
    README) passes the bounds check and issues one [mmap_read] for [n]
    bytes on the pointer [open] returned. *)
Theorem open_then_read_whole (host : Host) (w : World) (lib : Lib)
    (path : string) (buf : list byte) :
  libP w = Some (Ok lib) ->
  let r := native host w lib (mmap_open (Loader.toCStringPath path)) in
  FfiApi.is_null (reply_ptr r) = false ->
  0 <= reply_len r < 2 ^ 53 ->
  Z.of_nat (length buf) = reply_len r ->
  let href := length (handles w) in
  let w1 := (FfiApi.open host path w).2 in
  let c := mmap_read buf (reply_ptr r) 0 (reply_len r) in
  (FfiApi.open host path w).1 = Ok href
  /\ handles w1 !! href
     = Some {| ptr := reply_ptr r; len := reply_len r; path := path |}
  /\ FfiApi.read host href buf 0 w1
     = (Ok (JsNumber.Number (reply_ret (native host w1 lib c))),
        called host w1 lib c).
Proof.
  intros E r Hn Hl Hb href w1 c.
  assert (JsNumber.Number (reply_len r mod 2 ^ 64) = reply_len r) as Hlen.
  { rewrite Z.mod_small
      by (split; [lia|]; transitivity (2 ^ 53); [lia|reflexivity]).
    apply round_safe. unfold JsNumber.safe. lia. }
  pose proof (open_eval host w lib path E) as Ho. cbv zeta in Ho.
  fold r in Ho. rewrite Hn, Hlen in Ho.
  unfold w1. rewrite Ho. simpl.
  split; [reflexivity|]. split.
  - unfold href. rewrite lookup_app_r by reflexivity. now rewrite Nat.sub_diag.
  - erewrite read_eval; [| exact E |].
    2:{ simpl. unfold href. rewrite lookup_app_r by reflexivity.
        now rewrite Nat.sub_diag. }
    cbv zeta. simpl. rewrite Hb.
    assert (JsNumber.add (JsNumber.Number 0) (reply_len r) = reply_len r) as ->
      by (unfold JsNumber.add, JsNumber.Number; rewrite (round_safe 0) by reflexivity;
          apply round_safe; unfold JsNumber.safe; lia).
    now rewrite Z.ltb_irrefl.
Qed.

Lemma open_then_read_whole_witness :
  let host := Demo.host Demo.offline Demo.full_binary sizing_native in
  let h := {| ptr := Some 1; len := 0; path := "other.bin" |} in
  let w := Demo.loaded Demo.v2_lib {[ "data.bin" := File Demo.good 420 ]} h in
  let w1 := (FfiApi.open host "data.bin" w).2 in
  handles w1 !! 1%nat
  = Some {| ptr := Some 4096; len := 4; path := "data.bin" |}
  /\ (FfiApi.read host 1 Demo.tampered 0 w1).1 = Ok 0
  /\ trace (FfiApi.read host 1 Demo.tampered 0 w1).2
     = [ EvNative (mmap_open (Loader.toCStringPath "data.bin"));
         EvNative (mmap_read Demo.tampered (Some 4096) 0 4) ].
Proof.
  intros host h w w1.
  destruct (open_then_read_whole host w Demo.v2_lib "data.bin" Demo.tampered
              eq_refl eq_refl ltac:(vm_compute; split; congruence) eq_refl)
    as (_ & Hh & Hr).
  split; [exact Hh|].
  split; [exact (f_equal fst Hr) | exact (f_equal (fun x => trace x.2) Hr)].
Defined.

(** ** Flushing and closing *)




Lemma close_eval (host : Host) (w : World) (lib : Lib) (href : nat)
    (h : MmapHandle) :
  libP w = Some (Ok lib) -> handles w !! href = Some h ->
  FfiApi.close host href w
  = (Ok tt, called host w lib (mmap_close (ptr h) (len h))).
Proof.
  intros E Hh. unfold FfiApi.close, Runtime.bind at 1.
  rewrite (getLib_memo host w _ E). unfold Runtime.bind at 1, FfiApi.deref.
  now rewrite Hh.
Qed.

(** X6: [close] releases through one [mmap_close] call and keeps no
    record of it.  The handle reads the same afterwards, so a second
    [close] issues [mmap_close] again with the same pointer and length,
    and a later [write] or [read] that passes the bounds check is
    forwarded to native code with the pointer that was released. *)
Theorem close_does_not_invalidate (host : Host) (w : World) (lib : Lib)
    (href : nat) (h : MmapHandle) (buf : list byte) (offset : Z) :
  libP w = Some (Ok lib) -> handles w !! href = Some h ->
  JsNumber.add (JsNumber.Number offset) (Z.of_nat (length buf)) <= len h ->
  let c := mmap_close (ptr h) (len h) in
  let w1 := called host w lib c in
  let n := Z.of_nat (length buf) in
  FfiApi.close host href w = (Ok tt, w1)
  /\ handles w1 !! href = Some h
  /\ FfiApi.close host href w1 = (Ok tt, called host w1 lib c)
  /\ trace (FfiApi.close host href w1).2 = trace w ++ [EvNative c; EvNative c]
  /\ trace (FfiApi.write host href buf offset w1).2
     = trace w ++ [EvNative c; EvNative (mmap_write (ptr h) offset buf n)]
  /\ trace (FfiApi.read host href buf offset w1).2
     = trace w ++ [EvNative c; EvNative (mmap_read buf (ptr h) offset n)].
Proof.
  intros E Hh Hb c w1 n.
  assert (libP w1 = Some (Ok lib)) as E1 by exact E.
  assert (handles w1 !! href = Some h) as Hh1 by exact Hh.
  split; [now apply close_eval|]. split; [exact Hh1|].
  rewrite (close_eval host w1 lib href h E1 Hh1).
  split; [reflexivity|].
  split; [simpl; now rewrite <- app_assoc|].
  rewrite (write_eval host w1 lib href h buf offset E1 Hh1).
  rewrite (read_eval host w1 lib href h buf offset E1 Hh1).
  cbv zeta. fold n.
  assert ((len h <? JsNumber.add (JsNumber.Number offset) n) = false) as ->
    by (apply Z.ltb_ge; exact Hb).
  simpl. now rewrite <- !app_assoc.
Qed.

Lemma close_does_not_invalidate_witness :
  let host := Demo.host Demo.offline Demo.full_binary
                (Demo.const_native None 0 4) in
  let h := {| ptr := Some 4096; len := 8; path := "out.bin" |} in
  let w := Demo.loaded Demo.v2_lib ∅ h in
  let w1 := (FfiApi.close host 0 w).2 in
  trace (FfiApi.close host 0 w1).2
  = [ EvNative (mmap_close (Some 4096) 8); EvNative (mmap_close (Some 4096) 8) ]
  /\ trace (FfiApi.write host 0 Demo.good 2 w1).2
     = [ EvNative (mmap_close (Some 4096) 8);
         EvNative (mmap_write (Some 4096) 2 Demo.good 4) ].
Proof.
  intros host h w w1.
  destruct (close_does_not_invalidate host w Demo.v2_lib 0%nat h Demo.good 2
              eq_refl eq_refl ltac:(vm_compute; discriminate))
    as (_ & _ & _ & Hc & Hw & _).
  split; [exact Hc | exact Hw].
Defined.

(** ** The size-ensuring open *)



(** X8: with the library bound, [openWriteWithSize] on a path where no
    file exists throws from [Deno.truncate]; no native call is made, no
    file is created and no handle comes into being. *)
Theorem openWriteWithSize_needs_existing_file (host : Host) (w : World)
    (lib : Lib) (path : string) (size : Z) :
  libP w = Some (Ok lib) ->
  fs w !! path = None ->
  FfiApi.openWriteWithSize host path size w
  = (Throw (HostError "NotFound"),
     set_trace (trace w ++ [EvTruncate path (JsNumber.Number size)]) w).
Proof.
  intros E Hf.
  rewrite (openWriteWithSize_loaded host w lib path size E).
  unfold Runtime.bind, FfiApi.truncate. now rewrite Hf.
Qed.

Lemma openWriteWithSize_needs_existing_file_witness :
  let host := Demo.host Demo.offline Demo.full_binary sizing_native in
  let h := {| ptr := Some 1; len := 0; path := "other.bin" |} in
  let w := Demo.loaded Demo.v2_lib ∅ h in
  FfiApi.openWriteWithSize host "out.bin" 1024 w
  = (Throw (HostError "NotFound"), set_trace [EvTruncate "out.bin" 1024] w).
Proof.
  intros host h w.
  apply (openWriteWithSize_needs_existing_file host w Demo.v2_lib);
    reflexivity.
Defined.


(** ** Names and cache locations *)

Lemma append_inj_l (a b c : string) : a +:+ b = a +:+ c -> b = c.
Proof. induction a as [|x a IH]; simpl; intros H; [exact H|]. injection H. exact IH. Qed.

Lemma append_inj_r (a b s : string) : a +:+ s = b +:+ s -> a = b.
Proof.
  revert b. induction a as [|x a IH]; intros [|y b] H; simpl in *.
  - reflexivity.
  - apply (f_equal String.length) in H.
    rewrite ?append_length in H. simpl in H. rewrite ?append_length in H. lia.
  - apply (f_equal String.length) in H.
    rewrite ?append_length in H. simpl in H. rewrite ?append_length in H. lia.
  - injection H as -> H. f_equal. now apply IH.
Qed.

Lemma append_assoc (a b c : string) : (a +:+ b) +:+ c = a +:+ (b +:+ c).
Proof.
  induction a as [|x a IH]; [reflexivity|].
  change (String x ((a +:+ b) +:+ c) = String x (a +:+ (b +:+ c))).
  now rewrite IH.
Qed.

(** X10: on a supported platform [cacheDir] always returns, reading only
    the environment: a base directory followed by the package version.
    Two versions therefore never share a cache directory, nor a cache
    path for the same asset. *)
Theorem cacheDir_is_version_scoped (host host' : Host) (w : World)
    (os arch asset : string) :
  Platform.currentPlatform (build_os w) (build_arch w) = Ok (os, arch) ->
  exists base,
    Loader.cacheDir host w = (Ok (base +:+ VERSION host), w)
    /\ Loader.cacheDir host' w = (Ok (base +:+ VERSION host'), w)
    /\ (VERSION host ≠ VERSION host' ->
        base +:+ VERSION host ≠ base +:+ VERSION host'
        /\ (base +:+ VERSION host) +:+ "/" +:+ asset
           ≠ (base +:+ VERSION host') +:+ "/" +:+ asset).
Proof.
  intros Hp. unfold Loader.cacheDir. rewrite Hp.
  set (home := match env w !! "HOME" with
               | Some h => h
               | None => match env w !! "USERPROFILE" with
                         | Some u => u
                         | None => cwd w
                         end
               end).
  assert (forall base : string,
            VERSION host ≠ VERSION host' ->
            base +:+ VERSION host ≠ base +:+ VERSION host'
            /\ (base +:+ VERSION host) +:+ "/" +:+ asset
               ≠ (base +:+ VERSION host') +:+ "/" +:+ asset) as Hdiff.
  { intros base Hne. split; intros H.
    - now apply append_inj_l in H.
    - apply append_inj_r in H. now apply append_inj_l in H. }
  repeat case_bool_decide.
  - exists (default home (env w !! "LOCALAPPDATA") +:+ "\mmap\cache\").
    split; [now rewrite append_assoc|]. split; [now rewrite append_assoc|].
    apply Hdiff.
  - exists (home +:+ "/Library/Caches/mmap/").
    split; [now rewrite append_assoc|]. split; [now rewrite append_assoc|].
    apply Hdiff.
  - exists (default (home +:+ "/.cache") (env w !! "XDG_CACHE_HOME") +:+ "/mmap/").
    split; [now rewrite append_assoc|]. split; [now rewrite append_assoc|].
    apply Hdiff.
Qed.

Lemma cacheDir_is_version_scoped_witness :
  exists base,
    Loader.cacheDir (Demo.resolver Demo.manifest Demo.offline) Demo.w_fresh
    = (Ok (base +:+ "0.1.0"), Demo.w_fresh).
Proof.
  destruct (cacheDir_is_version_scoped
              (Demo.resolver Demo.manifest Demo.offline)
              (Demo.resolver Demo.manifest Demo.offline)
              Demo.w_fresh "linux" "x86_64" Demo.asset eq_refl)
    as (base & H & _).
  exists base. exact H.
Defined.

(** X11: for one crate name, two supported platforms that get the same
    asset name are the same platform: the assets of different platforms
    never overwrite each other. *)
Theorem assetName_distinguishes_platforms
    (os arch os' arch' crateName a : string) :
  Platform.assetName os arch crateName = Ok a ->
  Platform.assetName os' arch' crateName = Ok a ->
  os = os' /\ arch = arch'.
Proof.
  unfold Platform.assetName, Platform.currentPlatform.
  repeat case_bool_decide; simpl; subst; try discriminate;
    intros Hname Hname'; rewrite <- Hname' in Hname; clear Hname';
    first [ split; reflexivity
          | injection Hname as Hname; apply append_inj_l in Hname;
            discriminate ].
Qed.

Lemma assetName_distinguishes_platforms_witness :
  "darwin" = "darwin" /\ "aarch64" = "aarch64".
Proof.
  apply (assetName_distinguishes_platforms "darwin" "aarch64" "darwin"
           "aarch64" "mmap_ffi" "mmap_ffi-macos-aarch64.dylib");
    reflexivity.
Defined.

(** ** The digest text *)

Lemma unhex_hex_byte (b : byte) (rest : string) :
  unhex (Loader.hex_byte b +:+ rest)
  = match unhex rest with
    | Some bytes => Some (b :: bytes)
    | None => None
    end.
Proof. destruct b; reflexivity. Qed.

Lemma hex_byte_length (b : byte) (rest : string) :
  String.length (Loader.hex_byte b +:+ rest) = S (S (String.length rest)).
Proof. destruct b; reflexivity. Qed.

(** X12: [sha256Hex] writes two lower-case hexadecimal digits per byte
    of the digest, most significant first: reading the text back gives
    the digest bytes, so the text is twice as long as the digest and two
    inputs get the same text only when their digests are equal. *)
Theorem sha256Hex_reads_back (host : Host) (bytes bytes' : list byte) :
  unhex (Loader.sha256Hex host bytes) = Some (digest_sha256 host bytes)
  /\ String.length (Loader.sha256Hex host bytes)
     = (2 * length (digest_sha256 host bytes))%nat
  /\ (Loader.sha256Hex host bytes = Loader.sha256Hex host bytes' <->
      digest_sha256 host bytes = digest_sha256 host bytes').
Proof.
  assert (forall d : list byte,
            unhex (foldr (fun b acc => Loader.hex_byte b +:+ acc) "" d)
            = Some d) as Hun.
  { induction d as [|b d IH]; [reflexivity|].
    cbn [foldr]. now rewrite unhex_hex_byte, IH. }
  unfold Loader.sha256Hex. split; [apply Hun|]. split.
  - induction (digest_sha256 host bytes) as [|b d IH]; [reflexivity|].
    cbn [foldr length]. rewrite hex_byte_length, IH. lia.
  - split; [|now intros ->].
    intros H. apply (f_equal unhex) in H. rewrite !Hun in H. congruence.
Qed.

Lemma sha256Hex_reads_back_witness :
  unhex (Loader.sha256Hex (Demo.resolver Demo.manifest Demo.offline) Demo.good)
  = Some Demo.good.
Proof.
  exact (proj1 (sha256Hex_reads_back
                  (Demo.resolver Demo.manifest Demo.offline)
                  Demo.good Demo.good)).
Defined.

(** ** What gets loaded *)

Lemma bindSymbols_effect (host : Host) (p : string) (w : World) :
  fs (Loader.bindSymbols host p w).2 = fs w
  /\ (forall lib, (Loader.bindSymbols host p w).1 = Ok lib -> lib_path lib = p)
  /\ exists evs,
       trace (Loader.bindSymbols host p w).2 = trace w ++ evs
       /\ (evs = [EvDlopen p Loader.symbolsV2.*1]
           \/ evs = [EvDlopen p Loader.symbolsV2.*1;
                     EvDlopen p Loader.symbolsV1.*1]).
Proof.
  unfold Loader.bindSymbols, Runtime.try_catch, Loader.dlopen.
  destruct (dlopen_error host w p _); simpl.
  - destruct (dlopen_error host _ p _); simpl;
      (split; [reflexivity|]; split; [intros lib H; now simplify_eq|]);
      eexists; (split; [now rewrite <- app_assoc | now right]).
  - split; [reflexivity|]. split; [intros lib H; now simplify_eq|].
    eexists. split; [reflexivity | now left].
Qed.

(** X13: when neither the override nor a development artifact is found
    and [loadLibrary] succeeds, the library it bound is the file at the
    cache path, and the bytes that file holds when [Deno.dlopen] runs
    agree with the manifest entry of the asset, whether they were found
    in the cache or just downloaded. *)
Theorem loaded_binary_is_verified (host : Host) (w w' : World)
    (asset os arch root : string) (lib : Lib) :
  Platform.assetName (build_os w) (build_arch w) "mmap_ffi" = Ok asset ->
  Platform.currentPlatform (build_os w) (build_arch w) = Ok (os, arch) ->
  (Loader.cacheDir host w).1 = Ok root ->
  Loader.falsy (env w !! "MMAP_LIB_PATH") = true ->
  is_file (fs w) (flat asset) = false ->
  is_file (fs w) (nested os arch asset) = false ->
  Loader.loadLibrary host w = (Ok lib, w') ->
  let candidate := root +:+ "/" +:+ asset in
  lib_path lib = candidate
  /\ exists data mode,
       fs w' !! candidate = Some (File data mode)
       /\ digest_ok host data asset = true.
Proof.
  intros Ha Hp Hr Ho Hd1 Hd2 Hload candidate.
  unfold Loader.loadLibrary, Runtime.bind in Hload.
  rewrite (resolveLibPath_eval host w asset os arch root Ha Hp Hr), Ho in Hload.
  unfold below_override in Hload. fold candidate in Hload.
  rewrite Hd1, Hd2 in Hload.
  assert (forall w1 : World,
            (exists data mode, fs w1 !! candidate = Some (File data mode)
                               /\ digest_ok host data asset = true) ->
            Loader.bindSymbols host candidate w1 = (Ok lib, w') ->
            lib_path lib = candidate
            /\ exists data mode, fs w' !! candidate = Some (File data mode)
                                 /\ digest_ok host data asset = true) as Hbind.
  { intros w1 Hv Hb.
    destruct (bindSymbols_effect host candidate w1) as (Hfs & Hpath & _).
    rewrite Hb in Hfs, Hpath. simpl in Hfs, Hpath.
    split; [now apply Hpath|]. now rewrite Hfs. }
  destruct (cache_ok host (fs w) candidate asset) eqn:Hc.
  - eapply Hbind; [|exact Hload].
    unfold cache_ok in Hc. simpl. unfold candidate. rewrite made_candidate.
    fold candidate.
    destruct (fs w !! candidate) as [[data mode|]|]; try discriminate.
    eauto.
  - rewrite downloadVerified_eval in Hload. cbv zeta in Hload.
    destruct (fetch host _ _) as [what|[|] status statusText [bin|]];
      try discriminate.
    destruct (Loader.falsy (checksums host !! asset)); [discriminate|].
    destruct (digest_ok host bin asset) eqn:Hok; [|discriminate].
    destruct (writeFile_error host _ candidate); [discriminate|].
    eapply Hbind; [|exact Hload].
    exists bin, 493. split; [|exact Hok]. simpl. apply lookup_insert_eq.
Qed.

Lemma loaded_binary_is_verified_witness :
  let host := Demo.resolver Demo.manifest (Demo.serves Demo.good) in
  let w' := (Loader.loadLibrary host Demo.w_fresh).2 in
  exists data mode,
    fs w' !! Demo.candidate = Some (File data mode)
    /\ digest_ok host data Demo.asset = true.
Proof.
  intros host w'.
  destruct (loaded_binary_is_verified host Demo.w_fresh w' Demo.asset
              "linux" "x86_64" Demo.root
              {| lib_path := Demo.candidate;
                 lib_symbols := Loader.symbolsV2.*1 |}
              eq_refl eq_refl eq_refl eq_refl eq_refl eq_refl eq_refl)
    as [_ H].
  exact H.
Defined.

Lemma cacheDir_total (host : Host) (w : World) (os arch : string) :
  Platform.currentPlatform (build_os w) (build_arch w) = Ok (os, arch) ->
  exists root, (Loader.cacheDir host w).1 = Ok root.
Proof.
  intros Hp. unfold Loader.cacheDir. rewrite Hp.
  repeat case_bool_decide; eauto.
Qed.

Ltac count_events :=
  eexists; simpl; rewrite <- ?app_assoc; (split; [reflexivity|]);
  unfold probes; simpl; repeat split; auto.

Lemma resolve_events (host : Host) (w : World) :
  exists evs,
    trace (Loader.resolveLibPath host w).2 = trace w ++ evs
    /\ (length (List.filter is_fetch evs) <= 1)%nat
    /\ (length (List.filter is_write evs) <= 1)%nat
    /\ List.filter is_dlopen evs = []
    /\ List.filter is_native evs = [].
Proof.
  destruct (Platform.assetName (build_os w) (build_arch w) "mmap_ffi")
    as [asset|e] eqn:Ha.
  2:{ exists []. unfold Loader.resolveLibPath, Runtime.bind, Runtime.get,
        Runtime.lift. rewrite Ha. simpl. rewrite app_nil_r. auto. }
  destruct (platform_of_asset _ _ _ _ Ha) as (os & arch & Hp).
  destruct (cacheDir_total host w os arch Hp) as [root Hr].
  rewrite (resolveLibPath_eval host w asset os arch root Ha Hp Hr).
  destruct (Loader.falsy (env w !! "MMAP_LIB_PATH"));
    [|exists []; simpl; rewrite app_nil_r; auto].
  unfold below_override.
  destruct (is_file (fs w) (flat asset)); [count_events|].
  destruct (is_file (fs w) (nested os arch asset)); [count_events|].
  destruct (cache_ok host (fs w) (root +:+ "/" +:+ asset) asset);
    [count_events|].
  rewrite downloadVerified_eval. cbv zeta.
  destruct (fetch host _ _) as [what|[|] status statusText [bin|]];
    try count_events.
  destruct (Loader.falsy (checksums host !! asset)); [count_events|].
  destruct (digest_ok host bin asset); [|count_events].
  destruct (writeFile_error host _ _); count_events.
Qed.

(** X14: one [loadLibrary] makes at most one download, writes the cache
    at most once, calls [Deno.dlopen] at most twice and calls nothing in
    the native library: no step is ever repeated. *)
Theorem load_never_retries (host : Host) (w : World) :
  exists evs,
    trace (Loader.loadLibrary host w).2 = trace w ++ evs
    /\ (length (List.filter is_fetch evs) <= 1)%nat
    /\ (length (List.filter is_write evs) <= 1)%nat
    /\ (length (List.filter is_dlopen evs) <= 2)%nat
    /\ List.filter is_native evs = [].
Proof.
  destruct (resolve_events host w) as (evs & Ht & Hf & Hw & Hd & Hn).
  unfold Loader.loadLibrary, Runtime.bind.
  destruct (Loader.resolveLibPath host w) as [[p|e] w1]; simpl in Ht.
  - destruct (bindSymbols_effect host p w1) as (_ & _ & evs' & Ht' & Hev).
    exists (evs ++ evs'). rewrite Ht', Ht, <- app_assoc.
    split; [reflexivity|]. rewrite !List.filter_app, !length_app, Hd, Hn.
    destruct Hev as [-> | ->]; simpl; repeat split; lia.
  - exists evs. simpl. rewrite Hd, Hn. simpl. repeat split; auto; lia.
Qed.

(** ** The manifest generator *)

Lemma append_nil_r (a : string) : a +:+ "" = a.
Proof.
  induction a as [|x a IH]; [reflexivity|].
  change (String x (a +:+ "") = String x a). now rewrite IH.
Qed.

(** X15: the generator's [sha256Hex] (a loop that appends to a string)
    and the loader's (map, then join) give the same text for the same
    bytes, so a manifest written by the generator holds what the loader
    computes. *)
Theorem generator_digest_text_agrees (host : Host) (u8 : list byte) :
  GenChecksums.sha256Hex (digest_sha256 host) u8 = Loader.sha256Hex host u8.
Proof.
  unfold GenChecksums.sha256Hex, Loader.sha256Hex.
  assert (forall (d : list byte) (acc : string),
            fold_left (fun s b => s +:+ Loader.hex_byte b) d acc
            = acc +:+ foldr (fun b a => Loader.hex_byte b +:+ a) "" d) as H.
  { induction d as [|b d IH]; intros acc; cbn [fold_left foldr].
    - now rewrite append_nil_r.
    - now rewrite IH, append_assoc. }
  now rewrite H.
Qed.

(** X16: the names [assetName] builds for the crate name
    [deno_mmapio_ffi] all match the generator's default pattern, and the
    names it builds for [mmap_ffi], the crate name the loader passes,
    never do. *)
Theorem default_pattern_and_asset_names (os arch a : string) :
  (Platform.assetName os arch "deno_mmapio_ffi" = Ok a ->
   GenChecksums.DEFAULT_REGEX_test a = true)
  /\ (Platform.assetName os arch "mmap_ffi" = Ok a ->
      GenChecksums.DEFAULT_REGEX_test a = false).
Proof.
  unfold Platform.assetName, Platform.currentPlatform.
  repeat case_bool_decide; simpl; subst;
    (split; intros Hname; [|]); try discriminate;
    injection Hname as <-; vm_compute; reflexivity.
Qed.

Lemma default_pattern_and_asset_names_witness :
  GenChecksums.DEFAULT_REGEX_test "deno_mmapio_ffi-macos-aarch64.dylib" = true
  /\ GenChecksums.DEFAULT_REGEX_test "mmap_ffi-macos-aarch64.dylib" = false.
Proof.
  split.
  - apply (proj1 (default_pattern_and_asset_names "darwin" "aarch64" _)).
    reflexivity.
  - apply (proj2 (default_pattern_and_asset_names "darwin" "aarch64" _)).
    reflexivity.
Defined.

Section Collect.
Import GenChecksums.
Context (digest : list byte -> list byte) (args : Args)
        (files : gmap string Node).

(** What one turn of the loop does, by the kind of entry. *)
Lemma visit_skips (st : Collected) (e : WalkEntry) :
  taken args e = false -> visit digest args files st e = Ok st.
Proof.
  unfold taken, visit. destruct (entry_isFile e); simpl; [|reflexivity].
  now intros ->.
Qed.

Lemma visit_takes (st st' : Collected) (e : WalkEntry) :
  taken args e = true -> visit digest args files st e = Ok st' ->
  exists data mode,
    files !! entry_path e = Some (File data mode)
    /\ map st' = <[entry_name e := sha256Hex digest data]> (map st)
    /\ seenPaths st' = <[entry_name e := entry_path e]> (seenPaths st)
    /\ countMatched st' = S (countMatched st)
    /\ (strict args = true ->
        forall p, seenPaths st !! entry_name e = Some p -> p ≠ "" ->
                  p = entry_path e).
Proof.
  unfold taken, visit. intros Ht.
  apply andb_true_iff in Ht as [-> ->]. simpl.
  destruct (_ && _ && strict args) eqn:Hdup; [discriminate|].
  destruct (files !! entry_path e) as [[data mode|]|]; try discriminate.
  intros [= <-]. exists data, mode. simpl. repeat split.
  intros Hs p Hp Hne. rewrite Hs, andb_true_r in Hdup.
  rewrite Hp in Hdup. simpl in Hdup.
  rewrite (bool_decide_eq_false_2 _ Hne) in Hdup. simpl in Hdup.
  apply bool_decide_eq_false in Hdup.
  destruct (decide (p = entry_path e)); [assumption|contradiction].
Qed.

Lemma visit_all_app (st : Collected) (l1 l2 : list WalkEntry) :
  visit_all digest args files st (l1 ++ l2)
  = match visit_all digest args files st l1 with
    | Ok st1 => visit_all digest args files st1 l2
    | Throw x => Throw x
    end.
Proof.
  revert st. induction l1 as [|e l1 IH]; intros st; simpl; [reflexivity|].
  destruct (visit digest args files st e); [apply IH | reflexivity].
Qed.

Local Abbreviation collected := (More.collected digest args files).

Lemma collected_step (st st' : Collected) (seen : list WalkEntry)
    (e : WalkEntry) :
  collected st seen -> visit digest args files st e = Ok st' ->
  collected st' (seen ++ [e]).
Proof.
  intros (Hsound & Hfull & Hcount) Hv.
  destruct (taken args e) eqn:Ht.
  - destruct (visit_takes st st' e Ht Hv) as (data & mode & Hf & Hm & _ & Hc & _).
    split; [|split].
    + intros k v. rewrite Hm.
      destruct (decide (entry_name e = k)) as [<-|Hne].
      * rewrite lookup_insert_eq. intros [= <-].
        exists e, data, mode. rewrite elem_of_app, list_elem_of_singleton. auto.
      * rewrite lookup_insert_ne by exact Hne. intros Hk.
        destruct (Hsound k v Hk) as (e' & d' & m' & Hin & H').
        exists e', d', m'. rewrite elem_of_app. auto.
    + intros e' Hin Ht'. rewrite Hm.
      destruct (decide (entry_name e = entry_name e')) as [Heq|Hne].
      * rewrite Heq, lookup_insert_eq. eauto.
      * rewrite lookup_insert_ne by exact Hne.
        apply elem_of_app in Hin as [Hin|Hin]; [now apply Hfull|].
        apply list_elem_of_singleton in Hin. now subst.
    + intros _. rewrite Hm. apply insert_non_empty.
  - rewrite (visit_skips st e Ht) in Hv. injection Hv as <-.
    split; [|split; [|exact Hcount]].
    + intros k v Hk. destruct (Hsound k v Hk) as (e' & d' & m' & Hin & H').
      exists e', d', m'. rewrite elem_of_app. auto.
    + intros e' Hin Ht'.
      apply elem_of_app in Hin as [Hin|Hin]; [now apply Hfull|].
      apply list_elem_of_singleton in Hin. subst. congruence.
Qed.

Lemma collected_all (entries seen : list WalkEntry) (st st' : Collected) :
  collected st seen -> visit_all digest args files st entries = Ok st' ->
  collected st' (seen ++ entries).
Proof.
  revert seen st. induction entries as [|e entries IH]; intros seen st Hc Hv.
  - simpl in Hv. injection Hv as <-. now rewrite app_nil_r.
  - simpl in Hv.
    destruct (visit digest args files st e) as [st1|x] eqn:He; [|discriminate].
    replace (seen ++ e :: entries) with ((seen ++ [e]) ++ entries)
      by now rewrite <- app_assoc.
    apply (IH _ st1); [|exact Hv]. now apply (collected_step st).
Qed.

(** X17: when [collect] returns a manifest, every entry of it is the
    base name of a regular file of the walk that the pattern accepts,
    mapped to the digest text of that file's bytes; every such file of
    the walk has an entry under its base name; and with [--fail-on-empty]
    the manifest is not empty. *)
Theorem collect_manifest_is_the_matching_files (inDirPath : string)
    (entries : list WalkEntry) (m : gmap string string) :
  collect digest args files inDirPath entries = Ok m ->
  (forall k v, m !! k = Some v ->
     nameRegex_test args k = true
     /\ exists e data mode,
          e ∈ entries /\ entry_isFile e = true /\ entry_name e = k
          /\ files !! entry_path e = Some (File data mode)
          /\ v = sha256Hex digest data)
  /\ (forall e, e ∈ entries -> entry_isFile e = true ->
        nameRegex_test args (entry_name e) = true ->
        is_Some (m !! entry_name e))
  /\ (failOnEmpty args = true -> m ≠ ∅).
Proof.
  unfold collect. intros Hc.
  destruct (visit_all _ _ _ _ entries) as [st|x] eqn:Hv; [|discriminate].
  assert (collected {| map := ∅; seenPaths := ∅; countMatched := 0 |} []) as H0.
  { split; [|split]; simpl; [intros k v Hk; now rewrite lookup_empty in Hk
      | intros e He; now apply elem_of_nil in He | congruence]. }
  destruct (collected_all entries [] _ st H0 Hv) as (Hsound & Hfull & Hcount).
  simpl in *.
  destruct (failOnEmpty args && bool_decide (countMatched st = 0%nat)) eqn:Hf;
    [discriminate|].
  injection Hc as <-. split; [|split].
  - intros k v Hk.
    destruct (Hsound k v Hk) as (e & data & mode & Hin & Ht & Hn & Hfile & Hv').
    apply andb_true_iff in Ht as [Hfile' Htest].
    split; [now rewrite <- Hn|]. exists e, data, mode. auto.
  - intros e Hin Hfile Htest. apply Hfull; [exact Hin|].
    unfold taken. now rewrite Hfile, Htest.
  - intros Hfe. rewrite Hfe in Hf. simpl in Hf.
    apply bool_decide_eq_false in Hf. now apply Hcount.
Qed.

(** The entries seen so far agree on the path per base name. *)
Lemma strict_keeps_one_path (entries seen : list WalkEntry)
    (st st' : Collected) :
  strict args = true ->
  (forall e, e ∈ seen ++ entries -> entry_path e ≠ "") ->
  (forall e, e ∈ seen -> taken args e = true ->
     seenPaths st !! entry_name e = Some (entry_path e)) ->
  visit_all digest args files st entries = Ok st' ->
  forall e, e ∈ seen ++ entries -> taken args e = true ->
    seenPaths st' !! entry_name e = Some (entry_path e).
Proof.
  intros Hs. revert seen st.
  induction entries as [|e entries IH]; intros seen st Hne Hseen Hv.
  - simpl in Hv. injection Hv as <-. now rewrite app_nil_r.
  - simpl in Hv.
    destruct (visit digest args files st e) as [st1|x] eqn:He; [|discriminate].
    replace (seen ++ e :: entries) with ((seen ++ [e]) ++ entries) in *
      by now rewrite <- app_assoc.
    apply (IH (seen ++ [e]) st1); [exact Hne| |exact Hv].
    intros e' Hin Ht'.
    destruct (taken args e) eqn:Ht.
    + destruct (visit_takes st st1 e Ht He) as (data & mode & _ & _ & Hsp & _ & Hdup).
      rewrite Hsp.
      destruct (decide (entry_name e = entry_name e')) as [Heq|Hneq].
      * rewrite Heq, lookup_insert_eq.
        apply elem_of_app in Hin as [Hin|Hin].
        -- f_equal. symmetry. apply (Hdup Hs).
           ++ rewrite Heq. now apply Hseen.
           ++ apply Hne. rewrite elem_of_app. left. rewrite elem_of_app. now left.
        -- apply list_elem_of_singleton in Hin. now subst.
      * rewrite lookup_insert_ne by exact Hneq.
        apply elem_of_app in Hin as [Hin|Hin]; [now apply Hseen|].
        apply list_elem_of_singleton in Hin. now subst.
    + rewrite (visit_skips st e Ht) in He. injection He as <-.
      apply elem_of_app in Hin as [Hin|Hin]; [now apply Hseen|].
      apply list_elem_of_singleton in Hin. subst. congruence.
Qed.

(** X18: in [--strict] mode a manifest is returned only when no base
    name was taken from two different paths: any two files of the walk
    that the pattern accepts and that share a base name are the same
    path.  (The walk's paths are non-empty.) *)
Theorem strict_collect_has_unique_names (inDirPath : string)
    (entries : list WalkEntry) (m : gmap string string) (e1 e2 : WalkEntry) :
  strict args = true ->
  (forall e, e ∈ entries -> entry_path e ≠ "") ->
  collect digest args files inDirPath entries = Ok m ->
  e1 ∈ entries -> e2 ∈ entries ->
  taken args e1 = true -> taken args e2 = true ->
  entry_name e1 = entry_name e2 ->
  entry_path e1 = entry_path e2.
Proof.
  unfold collect. intros Hs Hne Hc Hin1 Hin2 Ht1 Ht2 Hname.
  destruct (visit_all _ _ _ _ entries) as [st|x] eqn:Hv; [|discriminate].
  assert (forall e, e ∈ [] ++ entries -> taken args e = true ->
            seenPaths st !! entry_name e = Some (entry_path e)) as H.
  { apply (strict_keeps_one_path entries []
             {| map := ∅; seenPaths := ∅; countMatched := 0 |} st Hs);
      [exact Hne | intros e He; now apply elem_of_nil in He | exact Hv]. }
  pose proof (H e1 Hin1 Ht1) as H1. pose proof (H e2 Hin2 Ht2) as H2.
  rewrite Hname in H1. congruence.
Qed.

Lemma later_names_keep_entry (entries : list WalkEntry) (st st' : Collected)
    (k : string) :
  (forall e, e ∈ entries -> taken args e = true -> entry_name e ≠ k) ->
  visit_all digest args files st entries = Ok st' ->
  map st' !! k = map st !! k.
Proof.
  revert st. induction entries as [|e entries IH]; intros st Hk Hv.
  - simpl in Hv. now injection Hv as <-.
  - simpl in Hv.
    destruct (visit digest args files st e) as [st1|x] eqn:He; [|discriminate].
    rewrite (IH st1); [| intros e' Hin; apply Hk; now right | exact Hv].
    destruct (taken args e) eqn:Ht.
    + destruct (visit_takes st st1 e Ht He) as (data & mode & _ & Hm & _).
      rewrite Hm. apply lookup_insert_ne. apply Hk; [now left | exact Ht].
    + rewrite (visit_skips st e Ht) in He. now injection He as <-.
Qed.

(** X19: in the manifest [collect] returns, a base name stands for the
    last file of the walk taken under that name: when the same base name
    is met at several paths (and [--strict] is off), the later file's
    digest replaces the earlier one. *)
Theorem collect_last_file_wins (inDirPath : string)
    (before after : list WalkEntry) (e : WalkEntry)
    (m : gmap string string) :
  collect digest args files inDirPath (before ++ e :: after) = Ok m ->
  taken args e = true ->
  (forall e', e' ∈ after -> taken args e' = true ->
     entry_name e' ≠ entry_name e) ->
  exists data mode,
    files !! entry_path e = Some (File data mode)
    /\ m !! entry_name e = Some (sha256Hex digest data).
Proof.
  unfold collect. intros Hc Ht Hlater.
  destruct (visit_all _ _ _ _ (before ++ e :: after)) as [st|x] eqn:Hv;
    [|discriminate].
  destruct (_ && _); [discriminate|]. injection Hc as <-.
  rewrite visit_all_app in Hv.
  destruct (visit_all _ _ _ _ before) as [st1|x]; [|discriminate].
  simpl in Hv.
  destruct (visit digest args files st1 e) as [st2|x] eqn:He; [|discriminate].
  destruct (visit_takes st1 st2 e Ht He) as (data & mode & Hf & Hm & _).
  exists data, mode. split; [exact Hf|].
  rewrite (later_names_keep_entry after st2 st (entry_name e) Hlater Hv).
  rewrite Hm. apply lookup_insert_eq.
Qed.

(** X20: a manifest that [collect] returns under the default pattern has
    no entry for any asset name the loader asks for (the names
    [assetName] builds for [mmap_ffi]): the loader's [!want] test is true
    for it. *)
Theorem default_manifest_lacks_loader_asset (inDirPath : string)
    (entries : list WalkEntry) (m : gmap string string)
    (os arch a : string) :
  nameRegex_test args = DEFAULT_REGEX_test ->
  collect digest args files inDirPath entries = Ok m ->
  Platform.assetName os arch "mmap_ffi" = Ok a ->
  m !! a = None /\ Loader.falsy (m !! a) = true.
Proof.
  intros Hre Hc Ha.
  assert (m !! a = None) as Hnone; [|now rewrite Hnone].
  destruct (m !! a) as [v|] eqn:Hm; [|reflexivity].
  unfold collect in Hc.
  destruct (visit_all _ _ _ _ entries) as [st|x] eqn:Hv; [|discriminate].
  assert (collected {| map := ∅; seenPaths := ∅; countMatched := 0 |} []) as H0.
  { split; [|split]; simpl; [intros k v' Hk; now rewrite lookup_empty in Hk
      | intros e He; now apply elem_of_nil in He | congruence]. }
  destruct (collected_all entries [] _ st H0 Hv) as (Hsound & _).
  destruct (_ && _); [discriminate|]. injection Hc as Hc. rewrite <- Hc in Hm.
  destruct (Hsound a v Hm) as (e & data & mode & _ & Ht & Hn & _).
  apply andb_true_iff in Ht as [_ Htest]. rewrite Hre, Hn in Htest.
  assert (DEFAULT_REGEX_test a = false) as Hfalse.
  { revert Ha. unfold Platform.assetName, Platform.currentPlatform.
    repeat case_bool_decide; simpl; subst; try discriminate;
      intros [= <-]; vm_compute; reflexivity. }
  congruence.
Qed.

End Collect.

Example strict_collect_reports_duplicate :
  GenChecksums.collect Demo.digest (default_args true false) dist_files
    "dist" dist_walk
  = Throw (Error (GenChecksums.duplicate_message
                    "deno_mmapio_ffi-linux-x86_64.so"
                    "dist/deno_mmapio_ffi-linux-x86_64.so"
                    "dist/old/deno_mmapio_ffi-linux-x86_64.so")).
Proof. vm_compute. reflexivity. Qed.

Lemma collect_manifest_is_the_matching_files_witness :
  let m : gmap string string :=
    {[ "deno_mmapio_ffi-linux-x86_64.so" := "7f454c47";
       "deno_mmapio_ffi-windows-x86_64.dll" := "7f454c47" ]} in
  GenChecksums.collect Demo.digest (default_args false true) dist_files
    "dist" dist_walk = Ok m
  /\ m ≠ ∅.
Proof.
  intros m.
  assert (GenChecksums.collect Demo.digest (default_args false true)
            dist_files "dist" dist_walk = Ok m) as Hc
    by (vm_compute; reflexivity).
  split; [exact Hc|].
  destruct (collect_manifest_is_the_matching_files Demo.digest
              (default_args false true) dist_files "dist" dist_walk m Hc)
    as (_ & _ & Hne).
  now apply Hne.
Defined.

Lemma strict_collect_has_unique_names_witness :
  let e := {| GenChecksums.entry_path := "dist/deno_mmapio_ffi-linux-x86_64.so";
              GenChecksums.entry_name := "deno_mmapio_ffi-linux-x86_64.so";
              GenChecksums.entry_isFile := true |} in
  GenChecksums.entry_path e = GenChecksums.entry_path e.
Proof.
  intros e.
  apply (strict_collect_has_unique_names Demo.digest (default_args true false)
           dist_files "dist" (take 4 dist_walk)
           {[ "deno_mmapio_ffi-linux-x86_64.so" := "7f454c46";
              "deno_mmapio_ffi-windows-x86_64.dll" := "7f454c47" ]} e e).
  - reflexivity.
  - intros e' He'. simpl in He'.
    repeat (apply elem_of_cons in He' as [-> | He']); try discriminate.
    now apply elem_of_nil in He'.
  - vm_compute. reflexivity.
  - simpl. rewrite !elem_of_cons. auto.
  - simpl. rewrite !elem_of_cons. auto.
  - vm_compute. reflexivity.
  - vm_compute. reflexivity.
  - reflexivity.
Defined.

Lemma collect_last_file_wins_witness :
  let m : gmap string string :=
    {[ "deno_mmapio_ffi-linux-x86_64.so" := "7f454c47";
       "deno_mmapio_ffi-windows-x86_64.dll" := "7f454c47" ]} in
  exists data mode,
    dist_files !! "dist/old/deno_mmapio_ffi-linux-x86_64.so"
    = Some (File data mode)
    /\ m !! "deno_mmapio_ffi-linux-x86_64.so"
       = Some (GenChecksums.sha256Hex Demo.digest data).
Proof.
  intros m.
  apply (collect_last_file_wins Demo.digest (default_args false false)
           dist_files "dist" (take 4 dist_walk) []
           {| GenChecksums.entry_path := "dist/old/deno_mmapio_ffi-linux-x86_64.so";
              GenChecksums.entry_name := "deno_mmapio_ffi-linux-x86_64.so";
              GenChecksums.entry_isFile := true |} m).
  - vm_compute. reflexivity.
  - vm_compute. reflexivity.
  - intros e' He'. now apply elem_of_nil in He'.
Defined.

Lemma default_manifest_lacks_loader_asset_witness :
  let m : gmap string string :=
    {[ "deno_mmapio_ffi-linux-x86_64.so" := "7f454c47";
       "deno_mmapio_ffi-windows-x86_64.dll" := "7f454c47" ]} in
  m !! "mmap_ffi-linux-x86_64.so" = None
  /\ Loader.falsy (m !! "mmap_ffi-linux-x86_64.so") = true.
Proof.
  intros m.
  apply (default_manifest_lacks_loader_asset Demo.digest
           (default_args false false) dist_files "dist" dist_walk m
           "linux" "x86_64").
  - reflexivity.
  - vm_compute. reflexivity.
  - reflexivity.
Defined.

(** ** Paths handed to native code *)

Lemma before_nul_append (a rest : string) :
  has_nul a = false ->
  before_nul (a +:+ String Ascii.zero rest) = a.
Proof.
  induction a as [|c a IH]; intros H.
  - reflexivity.
  - change (before_nul (String c (a +:+ String Ascii.zero rest)) = String c a).
    simpl in H. apply orb_false_iff in H as [Hc Ha]. simpl.
    rewrite Hc. now rewrite (IH Ha).
Qed.

(** X21: [toCStringPath] appends one NUL to the path.  What a C reader
    gets back from it is the path itself when the path holds no NUL, and
    otherwise only the part before the path's first NUL: such a path is
    not rejected, it is cut. *)
Theorem toCStringPath_reads_back (path rest : string) :
  String.length (Loader.toCStringPath path) = S (String.length path)
  /\ (has_nul path = false ->
      before_nul (Loader.toCStringPath path) = path
      /\ before_nul (Loader.toCStringPath (path +:+ String Ascii.zero rest))
         = path).
Proof.
  unfold Loader.toCStringPath, Loader.cstr. split.
  - rewrite append_length. simpl. lia.
  - intros H. split; [now apply before_nul_append|].
    rewrite append_assoc. now apply before_nul_append.
Qed.

Lemma toCStringPath_reads_back_witness :
  before_nul (Loader.toCStringPath "data.bin") = "data.bin"
  /\ before_nul (Loader.toCStringPath ("data.bin" +:+ String Ascii.zero ".bak"))
     = "data.bin".
Proof.
  apply (proj2 (toCStringPath_reads_back "data.bin" ".bak")). reflexivity.
Defined.

(** ** An empty override *)

Lemma downloadVerified_reads_trace_and_files (host : Host)
    (asset candidate : string) (w w' : World) :
  trace w = trace w' -> fs w = fs w' ->
  (Loader.downloadVerified host asset candidate w).1
  = (Loader.downloadVerified host asset candidate w').1
  /\ trace (Loader.downloadVerified host asset candidate w).2
     = trace (Loader.downloadVerified host asset candidate w').2
  /\ fs (Loader.downloadVerified host asset candidate w).2
     = fs (Loader.downloadVerified host asset candidate w').2.
Proof.
  intros Et Ef. rewrite !downloadVerified_eval. cbv zeta. rewrite Et, Ef.
  destruct (fetch host (trace w') (url host asset))
    as [what|[|] status statusText [bin|]]; simpl; rewrite ?Et; auto.
  destruct (Loader.falsy (checksums host !! asset)); simpl; rewrite ?Et; auto.
  destruct (digest_ok host bin asset); simpl; rewrite ?Et; auto.
  destruct (writeFile_error host _ candidate); simpl; rewrite ?Et; auto.
Qed.

(** X22: [MMAP_LIB_PATH] set to the empty string counts as not set:
    resolution gives the same result, makes the same external calls and
    leaves the same files as on the machine without the variable. *)
Theorem empty_override_is_no_override (host : Host) (w : World) :
  env w !! "MMAP_LIB_PATH" = Some "" ->
  let w0 := without_override w in
  (Loader.resolveLibPath host w).1 = (Loader.resolveLibPath host w0).1
  /\ trace (Loader.resolveLibPath host w).2
     = trace (Loader.resolveLibPath host w0).2
  /\ fs (Loader.resolveLibPath host w).2 = fs (Loader.resolveLibPath host w0).2.
Proof.
  intros He w0.
  destruct (Platform.assetName (build_os w) (build_arch w) "mmap_ffi")
    as [asset|e] eqn:Ha.
  2:{ unfold Loader.resolveLibPath, Runtime.bind, Runtime.get, Runtime.lift.
      simpl. now rewrite Ha. }
  destruct (platform_of_asset _ _ _ _ Ha) as (os & arch & Hp).
  destruct (cacheDir_total host w os arch Hp) as [root Hr].
  assert ((Loader.cacheDir host w0).1 = Ok root) as Hr0.
  { rewrite <- Hr. unfold Loader.cacheDir, w0. simpl.
    rewrite !lookup_delete_ne by discriminate. rewrite Hp.
    repeat case_bool_decide; reflexivity. }
  rewrite (resolveLibPath_eval host w asset os arch root Ha Hp Hr).
  rewrite (resolveLibPath_eval host w0 asset os arch root Ha Hp Hr0).
  rewrite He. simpl. unfold w0 at 1. simpl. rewrite lookup_delete_eq. simpl.
  unfold below_override. simpl.
  destruct (is_file (fs w) (flat asset)); [auto|].
  destruct (is_file (fs w) (nested os arch asset)); [auto|].
  destruct (cache_ok host (fs w) (root +:+ "/" +:+ asset) asset); [auto|].
  now apply downloadVerified_reads_trace_and_files.
Qed.

Lemma empty_override_is_no_override_witness :
  let host := Demo.resolver Demo.manifest (Demo.serves Demo.good) in
  let w := Demo.linux (<["MMAP_LIB_PATH" := ""]> Demo.home)
             {[ Demo.flat := File Demo.good 420 ]} in
  (Loader.resolveLibPath host w).1 = Ok Demo.flat.
Proof.
  intros host w.
  destruct (empty_override_is_no_override host w eq_refl) as (H & _).
  rewrite H. reflexivity.
Defined.

(** ** The byte comparison of the tests *)

Lemma u8_range (b : byte) : 0 <= TestCycle.u8 b < 256.
Proof.
  unfold TestCycle.u8. pose proof (Byte.to_N_bounded b). lia.
Qed.

Lemma u8_inj (b c : byte) : TestCycle.u8 b = TestCycle.u8 c -> b = c.
Proof.
  unfold TestCycle.u8. intros H. apply N2Z.inj in H.
  pose proof (Byte.of_to_N b) as Hb. rewrite H, Byte.of_to_N in Hb.
  congruence.
Qed.

Lemma word_inj (b0 b1 b2 b3 c0 c1 c2 c3 : byte) :
  TestCycle.u8 b0 + 2 ^ 8 * TestCycle.u8 b1 + 2 ^ 16 * TestCycle.u8 b2
  + 2 ^ 24 * TestCycle.u8 b3
  = TestCycle.u8 c0 + 2 ^ 8 * TestCycle.u8 c1 + 2 ^ 16 * TestCycle.u8 c2
    + 2 ^ 24 * TestCycle.u8 c3 ->
  b0 = c0 /\ b1 = c1 /\ b2 = c2 /\ b3 = c3.
Proof.
  intros H.
  pose proof (u8_range b0). pose proof (u8_range b1).
  pose proof (u8_range b2). pose proof (u8_range b3).
  pose proof (u8_range c0). pose proof (u8_range c1).
  pose proof (u8_range c2). pose proof (u8_range c3).
  change (2 ^ 8) with 256 in H. change (2 ^ 16) with 65536 in H.
  change (2 ^ 24) with 16777216 in H.
  repeat split; apply u8_inj; lia.
Qed.

Lemma to_int32_le (x : Z) : 0 <= x -> TestCycle.to_int32 x <= x.
Proof.
  intros Hx. unfold TestCycle.to_int32.
  assert (0 <= x mod 2 ^ 32 <= x) by
    (split; [apply Z.mod_pos_bound; reflexivity | apply Z.mod_le; [lia|reflexivity]]).
  destruct (_ <? _); [lia|]. assert (0 < 2 ^ 32) by reflexivity. lia.
Qed.

Lemma getUint32_in_range (view : list byte) (off : nat) :
  (off + 3 < length view)%nat ->
  exists b0 b1 b2 b3,
    view !! off = Some b0 /\ view !! (off + 1)%nat = Some b1
    /\ view !! (off + 2)%nat = Some b2 /\ view !! (off + 3)%nat = Some b3
    /\ TestCycle.getUint32 view off
       = Ok (TestCycle.u8 b0 + 2 ^ 8 * TestCycle.u8 b1
             + 2 ^ 16 * TestCycle.u8 b2 + 2 ^ 24 * TestCycle.u8 b3).
Proof.
  intros H. unfold TestCycle.getUint32.
  destruct (lookup_lt_is_Some_2 view off ltac:(lia)) as [b0 H0].
  destruct (lookup_lt_is_Some_2 view (off + 1) ltac:(lia)) as [b1 H1].
  destruct (lookup_lt_is_Some_2 view (off + 2) ltac:(lia)) as [b2 H2].
  destruct (lookup_lt_is_Some_2 view (off + 3) ltac:(lia)) as [b3 H3].
  rewrite H0, H1, H2, H3. exists b0, b1, b2, b3. auto.
Qed.

Lemma word_differs_spec (sa sb : list byte) (j : nat) :
  length sa = length sb -> (j * 4 + 3 < length sa)%nat ->
  exists d, TestCycle.word_differs sa sb j = Ok d
            /\ (d = false <-> word_agrees sa sb j).
Proof.
  intros Hl Hj. unfold TestCycle.word_differs.
  destruct (getUint32_in_range sa (j * 4) Hj)
    as (a0 & a1 & a2 & a3 & Ha0 & Ha1 & Ha2 & Ha3 & ->).
  destruct (getUint32_in_range sb (j * 4) ltac:(lia))
    as (b0 & b1 & b2 & b3 & Hb0 & Hb1 & Hb2 & Hb3 & ->).
  eexists. split; [reflexivity|]. unfold word_agrees.
  rewrite Ha0, Ha1, Ha2, Ha3, Hb0, Hb1, Hb2, Hb3.
  case_bool_decide as Hw; split; try congruence.
  - intros (? & ? & ? & ?). exfalso. apply Hw. congruence.
  - intros _. apply word_inj in Hw.
    destruct Hw as (-> & -> & -> & ->). auto.
Qed.

Lemma words_loop_spec (sa sb : list byte) (i : nat) :
  length sa = length sb -> (i * 4 <= length sa)%nat ->
  (TestCycle.for_each (seq 0 i) (TestCycle.word_differs sa sb) = Ok true
   /\ sa ≠ sb)
  \/ (TestCycle.for_each (seq 0 i) (TestCycle.word_differs sa sb) = Ok false
      /\ forall k, (k < i * 4)%nat -> sa !! k = sb !! k).
Proof.
  intros Hl. induction i as [|i IH]; intros Hi.
  - right. split; [reflexivity|]. intros k Hk. lia.
  - rewrite seq_S. simpl.
    assert (forall (l1 l2 : list nat) (f : nat -> Outcome bool),
              TestCycle.for_each (l1 ++ l2) f
              = match TestCycle.for_each l1 f with
                | Ok false => TestCycle.for_each l2 f
                | r => r
                end) as Happ.
    { intros l1 l2 f. induction l1 as [|x l1 IHl]; simpl; [reflexivity|].
      destruct (f x) as [[|]|]; auto. }
    rewrite Happ.
    destruct (IH ltac:(lia)) as [[-> Hne] | [-> Heq]]; [now left|].
    simpl.
    destruct (word_differs_spec sa sb i Hl ltac:(lia)) as (d & -> & Hd).
    destruct d.
    + left. split; [reflexivity|]. intros ->.
      assert (true = false) by (apply Hd; repeat split). discriminate.
    + right. split; [reflexivity|]. intros k Hk.
      destruct (proj1 Hd eq_refl) as (H0 & H1 & H2 & H3).
      destruct (decide (k < i * 4)%nat) as [Hlt|Hge]; [now apply Heq|].
      assert (k = i * 4 \/ k = i * 4 + 1 \/ k = i * 4 + 2 \/ k = i * 4 + 3)%nat
        as [-> | [-> | [-> | ->]]] by lia; assumption.
Qed.

Lemma tail_loop_spec (sa sb : list byte) (from count : nat) :
  (TestCycle.for_each (seq from count) (TestCycle.byte_differs sa sb) = Ok true
   /\ sa ≠ sb)
  \/ (TestCycle.for_each (seq from count) (TestCycle.byte_differs sa sb)
      = Ok false
      /\ forall k, (from <= k < from + count)%nat -> sa !! k = sb !! k).
Proof.
  revert from. induction count as [|count IH]; intros from.
  - right. split; [reflexivity|]. intros k Hk. lia.
  - cbn [seq TestCycle.for_each].
    change (TestCycle.byte_differs sa sb from)
      with (@Ok bool (bool_decide (TestCycle.u8 <$> sa !! from
                                   ≠ TestCycle.u8 <$> sb !! from))).
    case_bool_decide as Hb.
    + left. split; [reflexivity|]. intros ->. now apply Hb.
    + destruct (IH (S from)) as [[-> Hne] | [-> Heq]]; [now left|].
      right. split; [reflexivity|]. intros k Hk.
      destruct (decide (k = from)) as [->|Hne]; [|apply Heq; lia].
      destruct (sa !! from) as [x|], (sb !! from) as [y|]; simpl in Hb;
        try discriminate; [|reflexivity].
      injection Hb as Hb. f_equal. now apply u8_inj.
Qed.

(** One pair of chunks of equal length: the word loop and the tail loop
    together compare every byte and never throw. *)
Lemma chunk_differs_spec (sa sb : list byte) :
  length sa = length sb ->
  (TestCycle.chunk_differs sa sb = Ok true /\ sa ≠ sb)
  \/ (TestCycle.chunk_differs sa sb = Ok false /\ sa = sb).
Proof.
  intros Hl. unfold TestCycle.chunk_differs.
  set (n := TestCycle.to_int32 (Z.of_nat (length sa) / 4)).
  assert (Z.to_nat n * 4 <= length sa)%nat as Hi.
  { assert (n <= Z.of_nat (length sa) / 4)
      by (apply to_int32_le; apply Z.div_pos; lia).
    assert (4 * (Z.of_nat (length sa) / 4) <= Z.of_nat (length sa))
      by (apply Z.mul_div_le; lia).
    lia. }
  destruct (words_loop_spec sa sb (Z.to_nat n) Hl Hi) as [[-> Hne] | [-> Heq]];
    [now left|].
  destruct (tail_loop_spec sa sb (Z.to_nat n * 4)
              (length sa - Z.to_nat n * 4)) as [[-> Hne] | [-> Htail]];
    [now left|].
  right. split; [reflexivity|]. apply list_eq. intros k.
  destruct (decide (k < Z.to_nat n * 4)%nat); [now apply Heq|].
  destruct (decide (k < length sa)%nat); [apply Htail; lia|].
  rewrite !(proj2 (lookup_ge_None _ _)) by lia. reflexivity.
Qed.

Lemma subarray_window (a : list byte) (off end_ : Z) :
  0 <= off <= end_ -> end_ <= Z.of_nat (length a) ->
  TestCycle.subarray a off end_
  = take (Z.to_nat (end_ - off)) (drop (Z.to_nat off) a).
Proof.
  intros H1 H2. unfold TestCycle.subarray.
  assert ((off <? 0) = false) as -> by (apply Z.ltb_ge; lia).
  assert ((end_ <? 0) = false) as -> by (apply Z.ltb_ge; lia).
  now rewrite !Z.min_l by lia.
Qed.

Lemma chunks_spec (a b : list byte) (chunk : Z) :
  length a = length b -> 1 <= chunk ->
  Z.of_nat (length a) + chunk < 2 ^ 53 ->
  forall (fuel : nat) (off : Z),
    0 <= off -> Z.of_nat (length a) - off < Z.of_nat fuel ->
    (0 < fuel)%nat ->
    (TestCycle.chunks fuel a b chunk off = Some (Ok true)
     /\ drop (Z.to_nat off) a = drop (Z.to_nat off) b)
    \/ (TestCycle.chunks fuel a b chunk off = Some (Ok false) /\ a ≠ b).
Proof.
  intros Hl Hc Hsafe. induction fuel as [|fuel IH]; intros off Hoff Hfuel Hpos;
    [lia|].
  cbn [TestCycle.chunks].
  destruct (off <? Z.of_nat (length a)) eqn:Hlt.
  2:{ apply Z.ltb_ge in Hlt. left. split; [reflexivity|].
      rewrite !drop_ge by lia. reflexivity. }
  apply Z.ltb_lt in Hlt.
  assert (JsNumber.add off chunk = off + chunk) as ->
    by (apply round_safe; unfold JsNumber.safe; lia).
  set (end_ := Z.min (off + chunk) (Z.of_nat (length a))).
  rewrite (subarray_window a off end_) by (unfold end_; lia).
  rewrite (subarray_window b off end_) by (unfold end_; lia).
  set (c := Z.to_nat (end_ - off)).
  set (o := Z.to_nat off).
  set (sa := take c (drop o a)). set (sb := take c (drop o b)).
  destruct (chunk_differs_spec sa sb) as [[-> Hne] | [-> Heq]].
  { unfold sa, sb. rewrite !length_take, !length_drop. lia. }
  - right. split; [reflexivity|]. intros ->. now apply Hne.
  - destruct (IH (off + chunk)) as [[-> Hrest] | [-> Hne]];
      [lia | lia | lia | | now right].
    left. split; [reflexivity|].
    rewrite <- (take_drop c (drop o a)), <- (take_drop c (drop o b)).
    fold sa sb. rewrite Heq. f_equal. rewrite !drop_drop.
    destruct (decide (off + chunk <= Z.of_nat (length a))) as [Hin|Hout].
    + replace (o + c)%nat with (Z.to_nat (off + chunk))
        by (unfold o, c, end_; lia).
      exact Hrest.
    + rewrite !drop_ge by (unfold o, c, end_; lia). reflexivity.
Qed.

(** X24: [bytesEqual] decides equality of the two arrays.  For a chunk
    size of at least 1 (with [length + chunk] below [2^53], where
    [off += chunk] is exact) the loop ends within [length + 1] tests of
    its condition, never throws, and returns [true] exactly when the
    arrays hold the same bytes; arrays of different lengths are
    unequal.  The word loop and the tail loop together look at every
    byte of every chunk. *)
Theorem bytesEqual_decides_equality (fuel : nat) (a b : list byte)
    (chunk : Z) :
  1 <= chunk -> Z.of_nat (length a) + chunk < 2 ^ 53 ->
  (length a < fuel)%nat ->
  (TestCycle.bytesEqual fuel a b chunk = Some (Ok true) /\ a = b)
  \/ (TestCycle.bytesEqual fuel a b chunk = Some (Ok false) /\ a ≠ b).
Proof.
  intros Hc Hsafe Hfuel. unfold TestCycle.bytesEqual.
  case_bool_decide as Hl.
  - right. split; [reflexivity|]. intros ->. now apply Hl.
  - destruct (chunks_spec a b chunk Hl Hc Hsafe fuel 0)
      as [[-> Heq] | [-> Hne]]; [lia | lia | lia | now left | now right].
Qed.

Lemma bytesEqual_decides_equality_witness :
  TestCycle.bytesEqual 10 (Demo.good ++ Demo.good ++ [Byte.x01])
    (Demo.good ++ Demo.tampered ++ [Byte.x01]) 6 = Some (Ok false)
  /\ Demo.good ++ Demo.good ++ [Byte.x01]
     ≠ Demo.good ++ Demo.tampered ++ [Byte.x01].
Proof.
  destruct (bytesEqual_decides_equality 10 (Demo.good ++ Demo.good ++ [Byte.x01])
              (Demo.good ++ Demo.tampered ++ [Byte.x01]) 6)
    as [[Ht _] | H]; [lia | vm_compute; reflexivity | simpl; lia | | exact H].
  vm_compute in Ht. discriminate Ht.
Defined.

(** X25: with a chunk size of 0 the loop of [bytesEqual] never advances:
    on non-empty arrays of equal length every turn compares two empty
    windows and no number of turns ends the loop, whether the arrays
    are equal or not. *)
Theorem bytesEqual_zero_chunk_never_returns (fuel : nat) (a b : list byte) :
  length a = length b -> a ≠ [] ->
  TestCycle.bytesEqual fuel a b 0 = None.
Proof.
  intros Hl Hne. unfold TestCycle.bytesEqual.
  rewrite bool_decide_eq_false_2 by auto.
  assert (0 < Z.of_nat (length a)) as Hpos
    by (destruct a; [congruence | simpl; lia]).
  assert (forall c : list byte,
            TestCycle.subarray c 0 (Z.min 0 (Z.of_nat (length a))) = [])
    as Hempty
    by (intros c; rewrite Z.min_l by lia; unfold TestCycle.subarray; simpl;
        now rewrite Z.sub_diag).
  induction fuel as [|fuel IH]; [reflexivity|].
  cbn [TestCycle.chunks].
  rewrite (proj2 (Z.ltb_lt _ _) Hpos).
  change (JsNumber.add 0 0) with 0. rewrite !Hempty. exact IH.
Qed.

Lemma bytesEqual_zero_chunk_never_returns_witness :
  TestCycle.bytesEqual 1000 Demo.good Demo.tampered 0 = None.
Proof.
  apply (bytesEqual_zero_chunk_never_returns 1000 Demo.good Demo.tampered);
    [reflexivity | discriminate].
Defined.

Example bytesEqual_samples :
  TestCycle.bytesEqual 10 (Demo.good ++ Demo.good ++ [Byte.x01])
    (Demo.good ++ Demo.good ++ [Byte.x01]) 4 = Some (Ok true)
  /\ TestCycle.bytesEqual 10 (Demo.good ++ Demo.good ++ [Byte.x01])
       (Demo.good ++ Demo.tampered ++ [Byte.x01]) 3 = Some (Ok false)
  /\ TestCycle.bytesEqual 10 (Demo.good ++ [Byte.x01])
       (Demo.good ++ [Byte.x02]) 1048576 = Some (Ok false)
  /\ TestCycle.bytesEqual 10 Demo.good Demo.good 0 = None.
Proof. repeat split. Qed.
